(** * ipybox-server: container manager and MCP stdio/HTTP proxy

    A shallow embedding of [ipybox/server.py] and [ipybox/mcp_proxy.py].
    Python objects become records, dictionaries become finite maps
    ([gmap]) or association lists where the order of the keys is part of
    the behaviour, exceptions become the [Raise] branch of [result], and
    the environment (subprocesses, the JSON codec, the container runtime,
    the resource client) is an interface whose methods are the calls the
    source makes. *)

From Stdlib Require Import ZArith Sorted.
From stdpp Require Import gmap strings list fin_maps pretty.

Local Open Scope string_scope.
Local Open Scope list_scope.
Set Warnings "-register-all".

(** ** Exceptions and fallible results *)

(** The exception classes the two modules raise or catch.  All of them
    derive from [Exception]; [TimeoutError] is [asyncio.TimeoutError]. *)
Inductive exn :=
| HTTPException (status_code : Z) (detail : string)
| RuntimeError (msg : string)
| TimeoutError
| JSONDecodeError (msg : string)
| AttributeError (msg : string)
| TypeError (msg : string)
| KeyError (msg : string)
| OSError (msg : string).

Inductive result (A : Type) :=
| Ok (a : A)
| Raise (e : exn).
Arguments Ok {A} a.
Arguments Raise {A} e.

#[global] Instance result_ret : MRet result := fun A a => Ok a.
#[global] Instance result_bind : MBind result := fun A B k r =>
  match r with
  | Ok a => k a
  | Raise e => Raise e
  end.

(** [str(e)].  Starlette's [HTTPException.__str__] prints
    ["{status_code}: {detail}"]; the other classes print their message. *)
Definition str_exn (e : exn) : string :=
  match e with
  | HTTPException c d => pretty c +:+ ": " +:+ d
  | RuntimeError m | JSONDecodeError m | AttributeError m
  | TypeError m | KeyError m | OSError m => m
  | TimeoutError => ""
  end.

(** ** JSON values as Python sees them *)

(** What [json.loads] returns: [None], [bool], [int], [str], [list] and
    [dict].  A dictionary keeps the order of its keys; a key occurs once.
    Numbers are integers: the ids of JSON-RPC are strings or integers. *)
Inductive json :=
| JNull
| JBool (b : bool)
| JInt (n : Z)
| JStr (s : string)
| JList (l : list json)
| JDict (d : list (string * json)).

Fixpoint assoc {A} (k : string) (d : list (string * A)) : option A :=
  match d with
  | [] => None
  | (k', v) :: d' => if String.eqb k k' then Some v else assoc k d'
  end.

Definition type_name (o : json) : string :=
  match o with
  | JNull => "NoneType"
  | JBool _ => "bool"
  | JInt _ => "int"
  | JStr _ => "str"
  | JList _ => "list"
  | JDict _ => "dict"
  end.

(** Python's [a == b].  [bool] is a subclass of [int], so [True == 1];
    lists compare element by element, dictionaries as mappings. *)
Fixpoint py_eq (a b : json) {struct a} : bool :=
  match a, b with
  | JNull, JNull => true
  | JBool x, JBool y => Bool.eqb x y
  | JBool x, JInt n => Z.eqb (Z.b2z x) n
  | JInt n, JBool x => Z.eqb n (Z.b2z x)
  | JInt m, JInt n => Z.eqb m n
  | JStr s, JStr t => String.eqb s t
  | JList l1, JList l2 =>
      (fix all2 (l1 l2 : list json) {struct l1} : bool :=
         match l1, l2 with
         | [], [] => true
         | x :: l1', y :: l2' => py_eq x y && all2 l1' l2'
         | _, _ => false
         end) l1 l2
  | JDict d1, JDict d2 =>
      Nat.eqb (length d1) (length d2) &&
      (fix sub (d : list (string * json)) {struct d} : bool :=
         match d with
         | [] => true
         | (k, v) :: d' =>
             match assoc k d2 with
             | Some v' => py_eq v v' && sub d'
             | None => false
             end
         end) d1
  | _, _ => false
  end.

(** [o.get(key)]: only a [dict] has the method. *)
Definition py_get (o : json) (key : string) : result json :=
  match o with
  | JDict d => Ok (default JNull (assoc key d))
  | _ => Raise (AttributeError
                  ("'" +:+ type_name o +:+ "' object has no attribute 'get'"))
  end.

(** [key in o] for a string [key]: key membership on a [dict], element
    membership on a [list], substring test on a [str]. *)
Definition py_contains (key : string) (o : json) : result bool :=
  match o with
  | JDict d => Ok (bool_decide (is_Some (assoc key d)))
  | JList l => Ok (existsb (fun x => py_eq x (JStr key)) l)
  | JStr s => Ok (bool_decide (is_Some (String.index 0 key s)))
  | _ => Raise (TypeError
                  ("argument of type '" +:+ type_name o +:+ "' is not iterable"))
  end.

(** [o[key]] for a string [key]. *)
Definition py_getitem (o : json) (key : string) : result json :=
  match o with
  | JDict d =>
      match assoc key d with
      | Some v => Ok v
      | None => Raise (KeyError ("'" +:+ key +:+ "'"))
      end
  | JList _ => Raise (TypeError "list indices must be integers or slices, not str")
  | JStr _ => Raise (TypeError "string indices must be integers")
  | _ => Raise (TypeError ("'" +:+ type_name o +:+ "' object is not subscriptable"))
  end.

Definition is_none (o : json) : bool :=
  match o with JNull => true | _ => false end.

Definition isinstance_list (o : json) : bool :=
  match o with JList _ => true | _ => false end.

Definition isinstance_dict (o : json) : bool :=
  match o with JDict _ => true | _ => false end.

(** Truth value of an optional string ([if session_id]): [None] and the
    empty string are false. *)
Definition truthy (o : option string) : bool :=
  match o with
  | Some s => negb (String.eqb s "")
  | None => false
  end.

(** ** The operating system and the JSON codec, as [mcp_proxy.py] uses them *)

(** A child process: [returncode] is [None] while it runs. *)
Record Process := {
  pid : nat;
  returncode : option Z;
}.

(** One of the three background tasks of a session. *)
Inductive TaskKind := ReadStdout | ReadStderr | WriteStdin.

Record Task := {
  task_kind : TaskKind;
  task_done : bool;
  task_cancelled : bool;
}.

(** [task.cancel()] unless the task is done. *)
Definition cancel_unless_done (k : Task) : Task :=
  if k.(task_done) then k
  else {| task_kind := k.(task_kind); task_done := false; task_cancelled := true |}.

Definition create_task (kind : TaskKind) : Task :=
  {| task_kind := kind; task_done := false; task_cancelled := false |}.

Definition newline : string := String (Ascii.ascii_of_nat 10) "".

(** The calls into asyncio, json and pydantic.  [create_subprocess_exec
    argv cwd env] returns the child or raises; [terminate_wait p] is the
    return code [stop] obtains from [terminate]/[kill] followed by [wait],
    or [None] when that sequence raises and the child is left as it is;
    [json_loads] is [None] on a [JSONDecodeError];
    [JSONRPC20Request_validate item] is the message of the exception
    raised when the model [JSONRPC20Request] is built from the keys of
    [item], [None] when the model accepts them. *)
Class OS := {
  create_subprocess_exec :
    list string -> option string -> list (string * string) -> result Process;
  terminate_wait : Process -> option Z;
  json_loads : string -> option json;
  json_dumps : json -> string;
  JSONRPC20Request_validate : json -> option string;
}.

(** ** class MCPSession *)

Inductive MCPSessionState := INITIALIZING | ACTIVE | CLOSING | CLOSED | ERROR.

#[global] Instance MCPSessionState_eq_dec : EqDecision MCPSessionState.
Proof. solve_decision. Defined.

Module MCPSession.

(** The attributes [__init__] sets.  [capabilities] and
    [protocol_version] are never read or written again and are left out.
    [stdout_queue] holds the lines the reader task has queued, oldest
    first; [stdin_queue] the lines waiting for the writer task. *)
Record t := mk {
  session_id : string;
  container_id : string;
  server_name : string;
  command : string;
  args : list string;
  working_dir : option string;
  env : list (string * string);
  timeout : Z;
  state : MCPSessionState;
  process : option Process;
  last_activity : Z;
  initialized : bool;
  stdin_queue : list string;
  stdout_queue : list string;
  tasks : list Task;
}.

Definition set_state (v : MCPSessionState) (s : t) : t :=
  mk s.(session_id) s.(container_id) s.(server_name) s.(command) s.(args)
     s.(working_dir) s.(env) s.(timeout) v s.(process) s.(last_activity)
     s.(initialized) s.(stdin_queue) s.(stdout_queue) s.(tasks).

Definition set_process (v : option Process) (s : t) : t :=
  mk s.(session_id) s.(container_id) s.(server_name) s.(command) s.(args)
     s.(working_dir) s.(env) s.(timeout) s.(state) v s.(last_activity)
     s.(initialized) s.(stdin_queue) s.(stdout_queue) s.(tasks).

Definition set_last_activity (v : Z) (s : t) : t :=
  mk s.(session_id) s.(container_id) s.(server_name) s.(command) s.(args)
     s.(working_dir) s.(env) s.(timeout) s.(state) s.(process) v
     s.(initialized) s.(stdin_queue) s.(stdout_queue) s.(tasks).

Definition set_initialized (v : bool) (s : t) : t :=
  mk s.(session_id) s.(container_id) s.(server_name) s.(command) s.(args)
     s.(working_dir) s.(env) s.(timeout) s.(state) s.(process)
     s.(last_activity) v s.(stdin_queue) s.(stdout_queue) s.(tasks).

Definition set_stdin_queue (v : list string) (s : t) : t :=
  mk s.(session_id) s.(container_id) s.(server_name) s.(command) s.(args)
     s.(working_dir) s.(env) s.(timeout) s.(state) s.(process)
     s.(last_activity) s.(initialized) v s.(stdout_queue) s.(tasks).

Definition set_stdout_queue (v : list string) (s : t) : t :=
  mk s.(session_id) s.(container_id) s.(server_name) s.(command) s.(args)
     s.(working_dir) s.(env) s.(timeout) s.(state) s.(process)
     s.(last_activity) s.(initialized) s.(stdin_queue) v s.(tasks).

Definition set_tasks (v : list Task) (s : t) : t :=
  mk s.(session_id) s.(container_id) s.(server_name) s.(command) s.(args)
     s.(working_dir) s.(env) s.(timeout) s.(state) s.(process)
     s.(last_activity) s.(initialized) s.(stdin_queue) s.(stdout_queue) v.

(** [MCPSession(...)] at time [now]. *)
Definition init (now : Z) (session_id container_id server_name command : string)
    (args : list string) (working_dir : option string)
    (env : list (string * string)) (timeout : Z) : t :=
  mk session_id container_id server_name command args working_dir env
     timeout INITIALIZING None now false [] [] [].

Section WithOS.
Context {os : OS}.

(** [start]: no test of the current state; the subprocess is spawned
    and the state set to [ACTIVE], or to [ERROR] when the spawn raises. *)
Definition start (now : Z) (s : t) : bool * t :=
  match create_subprocess_exec (s.(command) :: s.(args))
                               s.(working_dir) s.(env) with
  | Ok p =>
      (true,
       set_last_activity now
         (set_state ACTIVE
            (set_tasks [ create_task ReadStdout; create_task ReadStderr;
                         create_task WriteStdin ]
               (set_process (Some p) s))))
  | Raise _ => (false, set_state ERROR s)
  end.

(** [stop] up to its first suspension point: the state is [CLOSING]
    and every task is cancelled. *)
Definition stop_begin (s : t) : t :=
  set_tasks (map cancel_unless_done s.(tasks)) (set_state CLOSING s).

(** The rest of [stop]: a running child is terminated and waited for,
    and the state is [CLOSED] whatever that attempt gave. *)
Definition stop_finish (s : t) : t :=
  let s1 :=
    match s.(process) with
    | Some p =>
        match p.(returncode) with
        | None =>
            match terminate_wait p with
            | Some rc =>
                set_process (Some {| pid := p.(pid); returncode := Some rc |}) s
            | None => s
            end
        | Some _ => s
        end
    | None => s
    end in
  set_state CLOSED s1.

Definition stop (s : t) : t :=
  if bool_decide (s.(state) = CLOSED \/ s.(state) = CLOSING) then s
  else stop_finish (stop_begin s).

Definition state_str (st : MCPSessionState) : string :=
  match st with
  | INITIALIZING => "MCPSessionState.INITIALIZING"
  | ACTIVE => "MCPSessionState.ACTIVE"
  | CLOSING => "MCPSessionState.CLOSING"
  | CLOSED => "MCPSessionState.CLOSED"
  | ERROR => "MCPSessionState.ERROR"
  end.

Definition send_message (now : Z) (message : json) (s : t) : result unit * t :=
  if bool_decide (s.(state) ≠ ACTIVE) then
    (Raise (RuntimeError ("Cannot send message to MCP server in state "
                          +:+ state_str s.(state))), s)
  else
    (Ok (),
     set_stdin_queue (s.(stdin_queue) ++ [json_dumps message +:+ newline])
       (set_last_activity now s)).

(** [receive_message]: an empty queue means that nothing arrives
    within the timeout (every caller passes one), so [wait_for] raises
    [TimeoutError].  The line is removed and [last_activity] updated
    before [json.loads] is tried. *)
Definition receive_message (now : Z) (s : t) : result json * t :=
  if bool_decide (s.(state) ≠ ACTIVE) then
    (Raise (RuntimeError ("Cannot receive message from MCP server in state "
                          +:+ state_str s.(state))), s)
  else
    match s.(stdout_queue) with
    | [] => (Raise TimeoutError, s)
    | message_str :: q =>
        let s' := set_last_activity now (set_stdout_queue q s) in
        match json_loads message_str with
        | Some message => (Ok message, s')
        | None => (Raise (JSONDecodeError "Expecting value"), s')
        end
    end.

Definition is_idle_timeout (now : Z) (max_idle_time : Z) (s : t) : bool :=
  bool_decide (now - s.(last_activity) > max_idle_time)%Z.

(** A call of one of the four public operations, and sequences of
    such calls on one session. *)
Inductive op :=
| Start
| SendMessage (message : json)
| ReceiveMessage
| Stop.

Definition run_op (now : Z) (o : op) (s : t) : t :=
  match o with
  | Start => (start now s).2
  | SendMessage message => (send_message now message s).2
  | ReceiveMessage => (receive_message now s).2
  | Stop => stop s
  end.

Definition run (now : Z) (ops : list op) (s : t) : t :=
  foldl (fun s o => run_op now o s) s ops.

(** The states a session is in from the call of an operation to its
    return: [stop] passes through [CLOSING] unless it returns at once. *)
Definition visited (now : Z) (o : op) (s : t) : list MCPSessionState :=
  match o with
  | Stop =>
      if bool_decide (s.(state) = CLOSED \/ s.(state) = CLOSING)
      then [s.(state)]
      else [(stop_begin s).(state); (stop_finish (stop_begin s)).(state)]
  | _ => [(run_op now o s).(state)]
  end.

(** [_write_stdin], from its first [get] on the queue until it waits on
    an empty queue or ends: the messages written to the stdin of the
    child, the queue it leaves, and whether the task has ended.
    [accepts message] tells whether the write and the drain of [message]
    return; when one of them raises, the task logs and ends.  An empty
    message ends the task. *)
Fixpoint write_stdin (accepts : string -> bool) (queue : list string)
    : list string * list string * bool :=
  match queue with
  | [] => ([], [], false)
  | message :: queue =>
      if String.eqb message "" then ([], queue, true)
      else if accepts message then
        let '(written, rest, ended) := write_stdin accepts queue in
        (message :: written, rest, ended)
      else ([], queue, true)
  end.

Fixpoint trace (now : Z) (ops : list op) (s : t) : list MCPSessionState :=
  match ops with
  | [] => []
  | o :: ops => visited now o s ++ trace now ops (run_op now o s)
  end.

End WithOS.

(** The declared machine, as a rank: [initializing], [active],
    [error], [closing], [closed]. *)
Definition rank (st : MCPSessionState) : nat :=
  match st with
  | INITIALIZING => 0
  | ACTIVE => 1
  | ERROR => 2
  | CLOSING => 3
  | CLOSED => 4
  end.

End MCPSession.

Definition rank_le (a b : MCPSessionState) : Prop :=
  MCPSession.rank a <= MCPSession.rank b.

(** ** class MCPProxy *)

(** What an asynchronous generator did: the frames it yielded, in order,
    and how it ended.  [Running] is a loop cut off by its fuel. *)
Inductive gen_end := Returned | Propagated (e : exn) | Running.

Record Generated := {
  yielded : list json;
  ending : gen_end;
}.

Module MCPProxy.

(** [sessions] is the registry; its values are references to session
    objects, which live in [objects] whether or not the registry still
    names them. *)
Record t := mk {
  session_timeout : Z;
  cleanup_interval : Z;
  sessions : gmap string nat;
  objects : list MCPSession.t;
}.

Definition set_sessions (v : gmap string nat) (p : t) : t :=
  mk p.(session_timeout) p.(cleanup_interval) v p.(objects).

Definition set_objects (v : list MCPSession.t) (p : t) : t :=
  mk p.(session_timeout) p.(cleanup_interval) p.(sessions) v.

(** [MCPProxy(container_manager, session_timeout, cleanup_interval)] *)
Definition init (session_timeout cleanup_interval : Z) : t :=
  mk session_timeout cleanup_interval ∅ [].

(** [self.sessions[session_id]] together with its reference. *)
Definition lookup_session (p : t) (sid : string) : option (nat * MCPSession.t) :=
  r ← p.(sessions) !! sid; s ← p.(objects) !! r; Some (r, s).

Definition error_response (message : string) (id : json) : json :=
  JDict [("jsonrpc", JStr "2.0");
         ("error", JDict [("code", JInt (-32603)); ("message", JStr message)]);
         ("id", id)].

Inductive loop_exit := Broke | Threw (e : exn) | Unfinished.

Section WithOS.
Context {os : OS}.

(** [get_or_create_session]; [uuid4] is what [uuid.uuid4()] gives when
    it is called.  The result carries the session id, the reference
    to the session object and the object. *)
Definition get_or_create_session (now : Z) (uuid4 : string)
    (container_id server_name : string) (session_id : option string)
    (command : option string) (args : option (list string))
    (working_dir : option string) (env : option (list (string * string)))
    (p : t) : result (string * nat * MCPSession.t) * t :=
  let found :=
    if truthy session_id then
      sid ← session_id;
      '(r, session) ← lookup_session p sid;
      if String.eqb session.(MCPSession.container_id) container_id
         && String.eqb session.(MCPSession.server_name) server_name
      then Some (sid, r, session) else None
    else None in
  match found with
  | Some (sid, r, session) =>
      let session := MCPSession.set_last_activity now session in
      (Ok (sid, r, session), set_objects (<[r := session]> p.(objects)) p)
  | None =>
      let new_session_id :=
        if truthy session_id then default "" session_id
        else "mcp-" +:+ uuid4 in
      let command := default "uvx" command in
      let args :=
        default ["supergateway"; "--stdio"; "mcp-server-" +:+ server_name] args in
      let session :=
        MCPSession.init now new_session_id container_id server_name command
          args working_dir (default [] env) p.(session_timeout) in
      let r := length p.(objects) in
      let '(success, session) := MCPSession.start now session in
      let p := set_objects (p.(objects) ++ [session]) p in
      if negb success then
        (Raise (HTTPException 500
                  ("Failed to start MCP session for server " +:+ server_name)), p)
      else
        (Ok (new_session_id, r, session),
         set_sessions (<[new_session_id := r]> p.(sessions)) p)
  end.

(** [["id" in response and response["id"] == request_id]] *)
Definition final_response (request_id response : json) : result bool :=
  has_id ← py_contains "id" response;
  if has_id : bool then
    v ← py_getitem response "id"; mret (py_eq v request_id)
  else mret false.

Definition timeout_response (request_id : json) : json :=
  error_response "Timeout waiting for response from MCP server" request_id.

(** The [while True] loop of [handle_mcp_request]. *)
Fixpoint receive_loop (fuel : nat) (now : Z) (request_id : json)
    (session : MCPSession.t) : list json * loop_exit * MCPSession.t :=
  match fuel with
  | O => ([], Unfinished, session)
  | S fuel =>
      match MCPSession.receive_message now session with
      | (Ok response, session) =>
          match final_response request_id response with
          | Ok true => ([response], Broke, session)
          | Ok false =>
              let '(frames, how, session) :=
                receive_loop fuel now request_id session in
              (response :: frames, how, session)
          | Raise e => ([response], Threw e, session)
          end
      | (Raise TimeoutError, session) =>
          ([timeout_response request_id], Broke, session)
      | (Raise e, session) => ([], Threw e, session)
      end
  end.

(** The second [try] block of [handle_mcp_request], up to the
    exception that leaves it, if any. *)
Definition forward (now : Z) (request_data : json) (session : MCPSession.t)
    : list json * loop_exit * MCPSession.t :=
  match MCPSession.send_message now request_data session with
  | (Raise e, session) => ([], Threw e, session)
  | (Ok _, session) =>
      match py_get request_data "method" with
      | Raise e => ([], Threw e, session)
      | Ok method =>
          let session :=
            if py_eq method (JStr "initialize")
            then MCPSession.set_initialized true session else session in
          match py_get request_data "id" with
          | Raise e => ([], Threw e, session)
          | Ok request_id =>
              if is_none request_id then ([], Broke, session)
              else receive_loop (S (length session.(MCPSession.stdout_queue)))
                     now request_id session
          end
      end
  end.

(** An [except Exception as e] handler of [handle_mcp_request]: the
    frames yielded so far, then the internal-error frame, unless
    building that frame raises in its turn. *)
Definition internal_error (frames : list json) (e : exn) (request_data : json)
    : Generated :=
  match py_get request_data "id" with
  | Ok id =>
      {| yielded := frames ++ [error_response ("Internal error: " +:+ str_exn e) id];
         ending := Returned |}
  | Raise e' => {| yielded := frames; ending := Propagated e' |}
  end.

Definition handle_mcp_request (now : Z) (uuid4 : string)
    (container_id server_name : string) (request_data : json)
    (session_id : option string) (command : option string)
    (args : option (list string)) (p : t) : Generated * t :=
  match get_or_create_session now uuid4 container_id server_name session_id
          command args None None p with
  | (Raise e, p) => (internal_error [] e request_data, p)
  | (Ok (_, r, session), p) =>
      let '(frames, how, session) := forward now request_data session in
      let p := set_objects (<[r := session]> p.(objects)) p in
      match how with
      | Broke => ({| yielded := frames; ending := Returned |}, p)
      | Threw e => (internal_error frames e request_data, p)
      | Unfinished => ({| yielded := frames; ending := Running |}, p)
      end
  end.

(** One pass of [_cleanup_idle_sessions] at time [now]: the idle
    session ids are collected, then each is popped and stopped. *)
Definition idle_sessions (now : Z) (p : t) : list string :=
  omap (fun '(sid, r) =>
          s ← p.(objects) !! r;
          if MCPSession.is_idle_timeout now p.(session_timeout) s
          then Some sid else None)
       (map_to_list p.(sessions)).

Definition pop_and_stop (p : t) (sid : string) : t :=
  match p.(sessions) !! sid with
  | Some r =>
      set_objects (alter MCPSession.stop r p.(objects))
        (set_sessions (delete sid p.(sessions)) p)
  | None => p
  end.

Definition cleanup_idle_sessions (now : Z) (p : t) : t :=
  foldl pop_and_stop p (idle_sessions now p).

(** [stop]: a task stops each session the registry names, the tasks are
    gathered, and the registry is cleared.  A task touches its own session
    only, so the stops are taken one after the other. *)
Definition stop (p : t) : t :=
  set_sessions ∅
    (set_objects
       (foldl (fun objs r => alter MCPSession.stop r objs) p.(objects)
              (map_to_list p.(sessions)).*2) p).

End WithOS.

(** [frame] is an object whose ["id"] is [request_id], or equals it
    under [==]. *)
Definition has_id (request_id frame : json) : Prop :=
  exists d v, frame = JDict d /\ assoc "id" d = Some v /\
              (v = request_id \/ py_eq v request_id = true).

(** A frame the loop yields and goes on after. *)
Definition passes_by (request_id response : json) : Prop :=
  final_response request_id response = Ok false.

(** Every session the registry names is named once. *)
Definition named_once (p : t) : Prop :=
  forall sid sid' r,
    p.(sessions) !! sid = Some r -> p.(sessions) !! sid' = Some r -> sid = sid'.

(** The registry names objects that exist. *)
Definition names_objects (p : t) : Prop :=
  forall sid r, p.(sessions) !! sid = Some r -> r < length p.(objects).

(** Every registered session carries the id it is registered under and
    is active. *)
Definition registered_active (p : t) : Prop :=
  forall sid r s,
    p.(sessions) !! sid = Some r -> p.(objects) !! r = Some s ->
    s.(MCPSession.session_id) = sid /\ s.(MCPSession.state) = ACTIVE.

(** What every reachable proxy satisfies. *)
Definition registry_ok (p : t) : Prop :=
  named_once p /\ names_objects p /\ registered_active p.

(** A call of one of the methods of the proxy that work on the registry,
    and the proxy it leaves. *)
Inductive call :=
| GetOrCreateSession (now : Z) (uuid4 container_id server_name : string)
    (session_id command : option string) (args : option (list string))
    (working_dir : option string) (env : option (list (string * string)))
| HandleMcpRequest (now : Z) (uuid4 container_id server_name : string)
    (request_data : json) (session_id command : option string)
    (args : option (list string))
| CleanupIdleSessions (now : Z)
| StopProxy.

Definition apply {os : OS} (p : t) (c : call) : t :=
  match c with
  | GetOrCreateSession now uuid4 container_id server_name session_id command args
      working_dir env =>
      (get_or_create_session now uuid4 container_id server_name session_id command
         args working_dir env p).2
  | HandleMcpRequest now uuid4 container_id server_name request_data session_id
      command args =>
      (handle_mcp_request now uuid4 container_id server_name request_data session_id
         command args p).2
  | CleanupIdleSessions now => cleanup_idle_sessions now p
  | StopProxy => stop p
  end.

End MCPProxy.

(** ** The container runtime and the resource client, as [server.py] uses them *)

Record ContainerConfig := {
  cfg_tag : string;
  cfg_binds : list (string * string);
  cfg_env : list (string * string);
  cfg_executor_port : option Z;
  cfg_resource_port : option Z;
  cfg_show_pull_progress : bool;
}.

(** The handle of a started container. *)
Record ExecutionContainer := {
  executor_port : Z;
  resource_port : Z;
}.

(** [container_run] is [ExecutionContainer(...)] followed by [run()];
    [container_kill c] is the message of the exception [c.kill()] raises,
    [None] when it returns; [get_mcp_sources port relpath server_name] is
    the call of that name on a [ResourceClient] for [port]: the mapping
    from tool name to tool descriptor, in the order of its keys. *)
Class Runtime := {
  container_run : ContainerConfig -> result ExecutionContainer;
  container_kill : ExecutionContainer -> option string;
  get_mcp_sources : Z -> string -> string -> result (list (string * json));
}.

(** ** class ContainerManager *)

Record ContainerInfo := {
  id : string;
  tag : string;
  info_executor_port : Z;
  info_resource_port : Z;
  created_at : Z;
  last_used_at : Z;
  status : string;
}.

Definition set_last_used_at (v : Z) (i : ContainerInfo) : ContainerInfo :=
  {| id := i.(id); tag := i.(tag);
     info_executor_port := i.(info_executor_port);
     info_resource_port := i.(info_resource_port);
     created_at := i.(created_at); last_used_at := v; status := i.(status) |}.

(** A value of [self.executions]. *)
Record Execution := {
  exec_container_id : string;
  exec_status : string;
  exec_created_at : Z;
  exec_completed_at : option Z;
  exec_error : option string;
}.

Record ExecutionStatus := {
  es_execution_id : string;
  es_container_id : string;
  es_status : string;
  es_created_at : Z;
  es_completed_at : option Z;
  es_error : option string;
}.

Definition HTTP_404_NOT_FOUND : Z := 404.
Definition HTTP_500_INTERNAL_SERVER_ERROR : Z := 500.

Module ContainerManager.

Record t := mk {
  containers : gmap string ExecutionContainer;
  container_info : gmap string ContainerInfo;
  executions : gmap string Execution;
}.

Definition init : t := mk ∅ ∅ ∅.

Section WithRuntime.
Context {runtime : Runtime}.

(** [container_id] is [str(uuid.uuid4())]. *)
Definition create_container (now : Z) (container_id : string)
    (config : ContainerConfig) (m : t) : result string * t :=
  match container_run config with
  | Ok container =>
      (Ok container_id,
       mk (<[container_id := container]> m.(containers))
          (<[container_id :=
               {| id := container_id; tag := config.(cfg_tag);
                  info_executor_port := container.(executor_port);
                  info_resource_port := container.(resource_port);
                  created_at := now; last_used_at := now;
                  status := "running" |}]> m.(container_info))
          m.(executions))
  | Raise e =>
      (Raise (HTTPException HTTP_500_INTERNAL_SERVER_ERROR
                ("Failed to create container: " +:+ str_exn e)), m)
  end.

Definition update_container_usage (now : Z) (container_id : string) (m : t) : t :=
  match m.(container_info) !! container_id with
  | Some info =>
      mk m.(containers)
         (<[container_id := set_last_used_at now info]> m.(container_info))
         m.(executions)
  | None => m
  end.

Definition get_container (now : Z) (container_id : string) (m : t)
    : result ExecutionContainer * t :=
  match m.(containers) !! container_id with
  | None =>
      (Raise (HTTPException HTTP_404_NOT_FOUND
                ("Container " +:+ container_id +:+ " not found")), m)
  | Some container =>
      (Ok container, update_container_usage now container_id m)
  end.

Definition get_container_info (container_id : string) (m : t)
    : result ContainerInfo * t :=
  match m.(container_info) !! container_id with
  | None =>
      (Raise (HTTPException HTTP_404_NOT_FOUND
                ("Container " +:+ container_id +:+ " not found")), m)
  | Some info => (Ok info, m)
  end.

(** The part of [destroy_container] under the lock: the container and
    its info are popped and its executions removed. *)
Definition purge (container_id : string) (m : t) : t :=
  mk (delete container_id m.(containers))
     (delete container_id m.(container_info))
     (filter (fun kv => kv.2.(exec_container_id) ≠ container_id) m.(executions)).

(** [destroy_container]: the result, the manager afterwards and the
    containers on which [kill] was called, in order. *)
Definition destroy_container (container_id : string) (m : t)
    : result bool * t * list ExecutionContainer :=
  let container := m.(containers) !! container_id in
  let m := purge container_id m in
  match container with
  | Some container =>
      match container_kill container with
      | None => (Ok true, m, [container])
      | Some e =>
          (Raise (HTTPException HTTP_500_INTERNAL_SERVER_ERROR
                    ("Failed to destroy container: " +:+ e)), m, [container])
      end
  | None => (Ok false, m, [])
  end.

(** [list(self.container_info.values())]; the order of a Python
    dictionary is not kept by the finite map. *)
Definition list_containers (m : t) : list ContainerInfo * t :=
  ((map_to_list m.(container_info)).*2, m).

Definition register_execution (now : Z) (container_id execution_id : string)
    (m : t) : t :=
  mk m.(containers) m.(container_info)
     (<[execution_id :=
          {| exec_container_id := container_id; exec_status := "running";
             exec_created_at := now; exec_completed_at := None;
             exec_error := None |}]> m.(executions)).

Definition complete_execution (now : Z) (execution_id : string)
    (error : option string) (m : t) : t :=
  match m.(executions) !! execution_id with
  | Some e =>
      mk m.(containers) m.(container_info)
         (<[execution_id :=
              {| exec_container_id := e.(exec_container_id);
                 exec_status := if truthy error then "error" else "completed";
                 exec_created_at := e.(exec_created_at);
                 exec_completed_at := Some now;
                 exec_error := if truthy error then error else e.(exec_error) |}]>
            m.(executions))
  | None => m
  end.

Definition get_execution_status (execution_id : string) (m : t)
    : result ExecutionStatus * t :=
  match m.(executions) !! execution_id with
  | None =>
      (Raise (HTTPException HTTP_404_NOT_FOUND
                ("Execution " +:+ execution_id +:+ " not found")), m)
  | Some execution =>
      (Ok {| es_execution_id := execution_id;
             es_container_id := execution.(exec_container_id);
             es_status := execution.(exec_status);
             es_created_at := execution.(exec_created_at);
             es_completed_at := execution.(exec_completed_at);
             es_error := execution.(exec_error) |}, m)
  end.

(** One turn of the loop of [cleanup_idle_containers]: the info is
    looked up and an idle container destroyed; whatever is raised is
    logged and the loop goes on. *)
Definition cleanup_one (idle_threshold : Z)
    (acc : t * list ExecutionContainer) (container_id : string)
    : t * list ExecutionContainer :=
  match get_container_info container_id acc.1 with
  | (Ok info, m) =>
      if bool_decide (info.(last_used_at) < idle_threshold)%Z then
        let '(_, m, killed) := destroy_container container_id m in
        (m, acc.2 ++ killed)
      else (m, acc.2)
  | (Raise _, m) => (m, acc.2)
  end.

(** [cleanup_idle_containers] at time [now]; [max_idle_time] is the
    constant [CONTAINER_MAX_IDLE_TIME], in seconds.  The result is the
    manager afterwards and the containers on which [kill] was called. *)
Definition cleanup_idle_containers (now max_idle_time : Z) (m : t)
    : t * list ExecutionContainer :=
  let idle_threshold := (now - max_idle_time)%Z in
  let container_ids := (map_to_list m.(containers)).*1 in
  foldl (cleanup_one idle_threshold) (m, []) container_ids.

End WithRuntime.

(** The two registries of containers have the same keys. *)
Definition in_step (m : t) : Prop :=
  forall container_id,
    is_Some (m.(containers) !! container_id) <->
    is_Some (m.(container_info) !! container_id).

(** Every execution record belongs to a registered container. *)
Definition owned (m : t) : Prop :=
  forall execution_id execution,
    m.(executions) !! execution_id = Some execution ->
    is_Some (m.(containers) !! execution.(exec_container_id)).

(** A record is running without a completion time and without an error,
    or completed with a time and without an error, or in error with a
    time and a message that is not empty. *)
Definition settled (execution : Execution) : Prop :=
  (execution.(exec_status) = "running" /\
   execution.(exec_completed_at) = None /\ execution.(exec_error) = None) \/
  (execution.(exec_status) = "completed" /\
   is_Some execution.(exec_completed_at) /\ execution.(exec_error) = None) \/
  (execution.(exec_status) = "error" /\
   is_Some execution.(exec_completed_at) /\
   exists message, execution.(exec_error) = Some message /\ message <> "").

(** What every reachable manager satisfies. *)
Definition sound (m : t) : Prop :=
  in_step m /\ owned m /\
  forall execution_id execution,
    m.(executions) !! execution_id = Some execution -> settled execution.


(** Whether the reaper destroys [container_id]: it is a key of
    [containers], has an info, and was last used before the threshold. *)
Definition idle (idle_threshold : Z) (m : t) (container_id : string) : bool :=
  match m.(containers) !! container_id, m.(container_info) !! container_id with
  | Some _, Some info => bool_decide (info.(last_used_at) < idle_threshold)%Z
  | _, _ => false
  end.

End ContainerManager.

(** ** HTTP endpoints *)

(** What an endpoint hands to the framework.  A streaming response
    carries the chunks its generator yields and how that generator ends;
    [Pending] is a handler that is still collecting frames. *)
Inductive Response :=
| JSONResponse (status_code : Z) (content : json) (headers : list (string * string))
| StreamingResponse (chunks : list string) (how : gen_end) (media_type : string)
                    (headers : list (string * string))
| Pending.

(** [needle in haystack] on strings. *)
Definition str_contains (needle haystack : string) : bool :=
  bool_decide (is_Some (String.index 0 needle haystack)).

(** The routes of [MCPProxy.create_router]. *)
Module Router.
Section WithEnvironment.
Context {os : OS} {runtime : Runtime}.

Definition session_headers (mcp_session_id : option string)
    : list (string * string) :=
  if truthy mcp_session_id
  then [("Mcp-Session-Id", default "" mcp_session_id)] else [].

(** The validation step: the first exception of the loop over a batch,
    or of the single request. *)
Definition validate (request_data : json) : option string :=
  match request_data with
  | JList items =>
      list_find (fun o => is_Some o) (JSONRPC20Request_validate <$> items)
        ≫= (fun '(_, e) => e)
  | _ => JSONRPC20Request_validate request_data
  end.

(** [POST /containers/{container_id}/mcp-proxy/{server_name}] with the
    request body [body], the [Accept] header [accept] and the
    [Mcp-Session-Id] header [mcp_session_id]. *)
Definition mcp_proxy_endpoint (now : Z) (uuid4 : string)
    (container_id server_name : string) (body : string)
    (accept : option string) (mcp_session_id : option string)
    (m : ContainerManager.t) (p : MCPProxy.t)
    : result Response * ContainerManager.t * MCPProxy.t :=
  match ContainerManager.get_container now container_id m with
  | (Raise e, m) => (Raise e, m, p)
  | (Ok _, m) =>
      match json_loads body with
      | None =>
          (Ok (JSONResponse 400
                 (JDict [("jsonrpc", JStr "2.0");
                         ("error", JDict [("code", JInt (-32700));
                                          ("message", JStr "Parse error: Invalid JSON")]);
                         ("id", JNull)]) []), m, p)
      | Some request_data =>
          match validate request_data with
          | Some e =>
              (Ok (JSONResponse 400
                     (JDict [("jsonrpc", JStr "2.0");
                             ("error", JDict [("code", JInt (-32600));
                                              ("message", JStr ("Invalid Request: " +:+ e))]);
                             ("id", match request_data with
                                    | JDict d => default JNull (assoc "id" d)
                                    | _ => JNull
                                    end)]) []), m, p)
          | None =>
              let accept_header := default "application/json" accept in
              let use_sse := str_contains "text/event-stream" accept_header in
              let '(g, p) :=
                MCPProxy.handle_mcp_request now uuid4 container_id server_name
                  request_data mcp_session_id None None p in
              let headers := session_headers mcp_session_id in
              if use_sse then
                (Ok (StreamingResponse
                       (map (fun response =>
                               "data: " +:+ json_dumps response +:+ newline +:+ newline)
                            g.(yielded))
                       g.(ending) "text/event-stream" headers), m, p)
              else
                match g.(ending) with
                | Returned =>
                    if isinstance_list request_data then
                      (Ok (JSONResponse 200 (JList g.(yielded)) headers), m, p)
                    else
                      (Ok (JSONResponse 200 (default JNull (head g.(yielded))) headers),
                       m, p)
                | Propagated e => (Raise e, m, p)
                | Running => (Ok Pending, m, p)
                end
          end
      end
  end.

End WithEnvironment.
End Router.

(** The executor client and the firewall of a container.  [execute port
    code timeout] is the outcome of [ExecutionClient(port)] entered and
    [execute(code, timeout)] called: a result, or a fault, which is an
    [ExecutionError] with [str(e)] and its trace, a timeout, or any other
    exception.  [submit_stream] is the same for [submit]: the chunks
    that [stream(timeout)] gives, and the fault that ends them, if any.
    [str_error_msg message trace] is [str] of the dictionary with the
    keys [error] and [trace]; [container_init_firewall] is the exception
    [init_firewall] raises, if any.  The timeout of a request, a float,
    is handed on as it is. *)
Record ExecutionResult := {
  result_text : option string;
  result_images : nat;
}.

Inductive ExecutionFault :=
| ExecutionError (message : string) (trace : option string)
| ExecutionTimeout
| ExecutionFailure (e : exn).

(** The message with which a fault is recorded: [str(e)], or the fixed
    text of a timeout. *)
Definition fault_message (fault : ExecutionFault) : string :=
  match fault with
  | ExecutionError message _ => message
  | ExecutionTimeout => "Execution timed out"
  | ExecutionFailure e => str_exn e
  end.

Class Clients := {
  execute : Z -> string -> Z -> ExecutionResult + ExecutionFault;
  submit_stream : Z -> string -> Z -> list string * option ExecutionFault;
  str_error_msg : string -> option string -> string;
  container_init_firewall : ExecutionContainer -> list string -> option exn;
}.

Record CodeExecutionResponse := {
  cer_execution_id : string;
  cer_text : option string;
  cer_has_images : bool;
  cer_error : option string;
  cer_error_trace : option string;
  cer_completed : bool;
}.

(** The routes of [server.py] the claims are about, past the API-key
    dependency. *)
Module Server.
Section WithRuntime.
Context {runtime : Runtime}.

(** [GET /containers/{container_id}] *)
Definition get_container_info (container_id : string) (m : ContainerManager.t)
    : result ContainerInfo * ContainerManager.t :=
  ContainerManager.get_container_info container_id m.

(** [GET /containers] *)
Definition list_containers (m : ContainerManager.t)
    : list ContainerInfo * ContainerManager.t :=
  ContainerManager.list_containers m.

(** [DELETE /containers/{container_id}] *)
Definition destroy_container (container_id : string) (m : ContainerManager.t)
    : result json * ContainerManager.t * list ExecutionContainer :=
  match ContainerManager.destroy_container container_id m with
  | (Ok _, m, kills) =>
      (Ok (JDict [("message", JStr ("Container " +:+ container_id +:+ " destroyed"))]),
       m, kills)
  | (Raise e, m, kills) => (Raise e, m, kills)
  end.

(** [GET /executions/{execution_id}] *)
Definition get_execution_status (execution_id : string) (m : ContainerManager.t)
    : result ExecutionStatus * ContainerManager.t :=
  ContainerManager.get_execution_status execution_id m.

(** [GET /containers/{container_id}/mcp/{server_name}] *)
Definition get_mcp_server_tools (now : Z) (container_id server_name relpath : string)
    (m : ContainerManager.t) : result json * ContainerManager.t :=
  match ContainerManager.get_container now container_id m with
  | (Raise e, m) => (Raise e, m)
  | (Ok container, m) =>
      match get_mcp_sources container.(resource_port) relpath server_name with
      | Ok sources =>
          (Ok (JDict [("server_name", JStr server_name);
                      ("tools", JList (JStr <$> sources.*1))]), m)
      | Raise e =>
          (Raise (HTTPException HTTP_500_INTERNAL_SERVER_ERROR
                    ("Failed to get MCP server tools: " +:+ str_exn e)), m)
      end
  end.

(** [POST /containers] *)
Definition create_container (now : Z) (container_id : string)
    (config : ContainerConfig) (m : ContainerManager.t)
    : result ContainerInfo * ContainerManager.t :=
  match ContainerManager.create_container now container_id config m with
  | (Ok container_id, m) => ContainerManager.get_container_info container_id m
  | (Raise e, m) => (Raise e, m)
  end.

(** The end of [lifespan]: every container is destroyed, and what a
    destroy raises is logged.  The proxy is stopped before, see
    [MCPProxy.stop]. *)
Definition destroy_all (m : ContainerManager.t)
    : ContainerManager.t * list ExecutionContainer :=
  foldl (fun acc container_id =>
           let '(_, m, killed) :=
             ContainerManager.destroy_container container_id acc.1 in
           (m, acc.2 ++ killed))
        (m, []) (map_to_list m.(ContainerManager.containers)).*1.

End WithRuntime.

Section WithClients.
Context {runtime : Runtime} {clients : Clients}.

(** [POST /containers/{container_id}/firewall] *)
Definition init_firewall (now : Z) (container_id : string)
    (allowed_domains : list string) (m : ContainerManager.t)
    : result json * ContainerManager.t :=
  match ContainerManager.get_container now container_id m with
  | (Raise e, m) => (Raise e, m)
  | (Ok container, m) =>
      match container_init_firewall container allowed_domains with
      | None => (Ok (JDict [("message", JStr "Firewall initialized successfully")]), m)
      | Some e =>
          (Raise (HTTPException HTTP_500_INTERNAL_SERVER_ERROR
                    ("Failed to initialize firewall: " +:+ str_exn e)), m)
      end
  end.

(** [POST /containers/{container_id}/execute]; [execution_id] is
    [str(uuid.uuid4())], [now] the time at which the container is looked
    up and the execution registered, [finished] the time at which it is
    completed. *)
Definition execute_code (now finished : Z) (execution_id : string)
    (container_id code : string) (timeout : Z) (m : ContainerManager.t)
    : result CodeExecutionResponse * ContainerManager.t :=
  match ContainerManager.get_container now container_id m with
  | (Raise e, m) => (Raise e, m)
  | (Ok container, m) =>
      let m := ContainerManager.register_execution now container_id execution_id m in
      match execute container.(executor_port) code timeout with
      | inl result =>
          (Ok {| cer_execution_id := execution_id;
                 cer_text := result.(result_text);
                 cer_has_images := bool_decide (0 < result.(result_images));
                 cer_error := None; cer_error_trace := None;
                 cer_completed := true |},
           ContainerManager.complete_execution finished execution_id None m)
      | inr (ExecutionError message trace) =>
          (Ok {| cer_execution_id := execution_id; cer_text := None;
                 cer_has_images := false;
                 cer_error := Some message; cer_error_trace := trace;
                 cer_completed := true |},
           ContainerManager.complete_execution finished execution_id (Some message) m)
      | inr ExecutionTimeout =>
          (Ok {| cer_execution_id := execution_id; cer_text := None;
                 cer_has_images := false;
                 cer_error := Some "Execution timed out"; cer_error_trace := None;
                 cer_completed := true |},
           ContainerManager.complete_execution finished execution_id
             (Some "Execution timed out") m)
      | inr (ExecutionFailure e) =>
          (Raise (HTTPException HTTP_500_INTERNAL_SERVER_ERROR
                    ("Failed to execute code: " +:+ str_exn e)),
           ContainerManager.complete_execution finished execution_id (Some (str_exn e)) m)
      end
  end.

Definition event (data : string) : string :=
  "data: " +:+ data +:+ newline +:+ newline.

(** [POST /containers/{container_id}/execute/stream], with the
    generator of the response run to its end. *)
Definition execute_code_stream (now finished : Z) (execution_id : string)
    (container_id code : string) (timeout : Z) (m : ContainerManager.t)
    : result Response * ContainerManager.t :=
  match ContainerManager.get_container now container_id m with
  | (Raise e, m) => (Raise e, m)
  | (Ok container, m) =>
      let m := ContainerManager.register_execution now container_id execution_id m in
      let '(chunks, how) := submit_stream container.(executor_port) code timeout in
      let '(last, error) :=
        match how with
        | None => ("[DONE]", None)
        | Some (ExecutionError message trace) =>
            ("[ERROR] " +:+ str_error_msg message trace, Some message)
        | Some ExecutionTimeout =>
            ("[ERROR] Execution timed out", Some "Execution timed out")
        | Some (ExecutionFailure e) => ("[ERROR] " +:+ str_exn e, Some (str_exn e))
        end in
      (Ok (StreamingResponse (map event (chunks ++ [last])) Returned
             "text/event-stream"
             [("Cache-Control", "no-cache"); ("Connection", "keep-alive");
              ("X-Execution-ID", execution_id)]),
       ContainerManager.complete_execution finished execution_id error m)
  end.

(** A request to one of the routes that read or write the manager, or a
    pass of the reaper, and the manager it leaves.  A request is paired
    with the time at which it is served. *)
Inductive request :=
| PostContainers (container_id : string) (config : ContainerConfig)
| GetContainers
| GetContainer (container_id : string)
| DeleteContainer (container_id : string)
| PostFirewall (container_id : string) (allowed_domains : list string)
| PostExecute (finished : Z) (execution_id container_id code : string) (timeout : Z)
| PostExecuteStream (finished : Z) (execution_id container_id code : string)
                    (timeout : Z)
| GetExecution (execution_id : string)
| GetTools (container_id server_name relpath : string)
| Reap (max_idle_time : Z).

Definition serve (m : ContainerManager.t) (timed : Z * request)
    : ContainerManager.t :=
  let now := timed.1 in
  match timed.2 with
  | PostContainers container_id config => (create_container now container_id config m).2
  | GetContainers => (list_containers m).2
  | GetContainer container_id => (get_container_info container_id m).2
  | DeleteContainer container_id => (destroy_container container_id m).1.2
  | PostFirewall container_id allowed_domains =>
      (init_firewall now container_id allowed_domains m).2
  | PostExecute finished execution_id container_id code timeout =>
      (execute_code now finished execution_id container_id code timeout m).2
  | PostExecuteStream finished execution_id container_id code timeout =>
      (execute_code_stream now finished execution_id container_id code timeout m).2
  | GetExecution execution_id => (get_execution_status execution_id m).2
  | GetTools container_id server_name relpath =>
      (get_mcp_server_tools now container_id server_name relpath m).2
  | Reap max_idle_time =>
      (ContainerManager.cleanup_idle_containers now max_idle_time m).1
  end.




End WithClients.
End Server.


(** ** The claims of the specification that the code does not meet, as the
    specification words them *)

Section Worded.
Context {os : OS} {runtime : Runtime}.

(** A session created because no id was supplied, or because the
    supplied id is not in the registry, is registered under ["mcp-"]
    followed by the uuid drawn. *)
Definition registered_under_minted_id (now : Z) (uuid4 : string)
    (container_id server_name : string) (session_id : option string)
    (command : option string) (args : option (list string))
    (working_dir : option string) (env : option (list (string * string)))
    (p : MCPProxy.t) : Prop :=
  (session_id = None \/
   exists sid, session_id = Some sid /\ p.(MCPProxy.sessions) !! sid = None) ->
  forall sid r session p',
    MCPProxy.get_or_create_session now uuid4 container_id server_name session_id
      command args working_dir env p = (Ok (sid, r, session), p') ->
    sid = "mcp-" +:+ uuid4 /\
    p'.(MCPProxy.sessions) !! ("mcp-" +:+ uuid4) = Some r.

(** No sequence of the public operations takes a closed session back to
    [ACTIVE]. *)
Definition never_reactivated (now : Z) (ops : list MCPSession.op)
    (s : MCPSession.t) : Prop :=
  s.(MCPSession.state) = CLOSED ->
  (MCPSession.run now ops s).(MCPSession.state) <> ACTIVE.

(** The second of two successive destroys fails with NotFound. *)
Definition second_destroy_not_found (container_id : string)
    (m : ContainerManager.t) : Prop :=
  let '(_, m1, _) := ContainerManager.destroy_container container_id m in
  exists detail,
    (ContainerManager.destroy_container container_id m1).1.1
    = Raise (HTTPException HTTP_404_NOT_FOUND detail).

(** The tools endpoint answers with the descriptors of the mapping that
    [get_mcp_sources] produced. *)
Definition tools_are_descriptors (now : Z)
    (container_id server_name relpath : string) (m : ContainerManager.t) : Prop :=
  forall container sources,
    m.(ContainerManager.containers) !! container_id = Some container ->
    get_mcp_sources container.(resource_port) relpath server_name = Ok sources ->
    (Server.get_mcp_server_tools now container_id server_name relpath m).1
    = Ok (JDict [("server_name", JStr server_name);
                 ("tools", JList sources.*2)]).

(** A batch of [N] requests is answered, in JSON mode, by an array of
    [N] frames, the [i]-th of which carries the id of the [i]-th request. *)
Definition batch_answered (now : Z) (uuid4 : string)
    (container_id server_name : string) (body : string)
    (mcp_session_id : option string)
    (m : ContainerManager.t) (p : MCPProxy.t) : Prop :=
  forall items,
    json_loads body = Some (JList items) ->
    exists frames headers,
      (Router.mcp_proxy_endpoint now uuid4 container_id server_name body
         (Some "application/json") mcp_session_id m p).1.1
      = Ok (JSONResponse 200 (JList frames) headers) /\
      length frames = length items /\
      Forall2 (fun frame item => py_get frame "id" = py_get item "id")
              frames items.

End Worded.

(** ** A concrete environment

    An echo server in the manner of [examples/simple_mcp_echo_server.py]:
    every command spawns except ["missing"], the codec knows the frames
    of a short exchange, and the container whose executor port is 0
    cannot be killed. *)

Definition quote : string := String (Ascii.ascii_of_nat 34) "".

Definition initialize_request : json :=
  JDict [("jsonrpc", JStr "2.0"); ("method", JStr "initialize"); ("id", JInt 1)].

Definition ping_request (n : Z) : json :=
  JDict [("jsonrpc", JStr "2.0"); ("method", JStr "ping"); ("id", JInt n)].

Definition initialized_notification : json :=
  JDict [("jsonrpc", JStr "2.0"); ("method", JStr "notifications/initialized")].

Definition progress_frame : json :=
  JDict [("jsonrpc", JStr "2.0"); ("method", JStr "notifications/progress")].

Definition result_frame (id : json) : json :=
  JDict [("jsonrpc", JStr "2.0"); ("id", id); ("result", JStr "pong")].

(** [json.dumps] with its default separators, for strings that need no
    escape. *)
Fixpoint dumps (o : json) : string :=
  match o with
  | JNull => "null"
  | JBool true => "true"
  | JBool false => "false"
  | JInt n => pretty n
  | JStr s => quote +:+ s +:+ quote
  | JList l =>
      "[" +:+
      (fix items (l : list json) : string :=
         match l with
         | [] => ""
         | x :: l' =>
             dumps x +:+ match l' with [] => "" | _ => ", " +:+ items l' end
         end) l
      +:+ "]"
  | JDict d =>
      "{" +:+
      (fix members (d : list (string * json)) : string :=
         match d with
         | [] => ""
         | (k, v) :: d' =>
             quote +:+ k +:+ quote +:+ ": " +:+ dumps v
             +:+ match d' with [] => "" | _ => ", " +:+ members d' end
         end) d
      +:+ "}"
  end.

(** The texts the codec of the example decodes. *)
Definition echo_frames : list json :=
  [progress_frame; result_frame (JInt 1); result_frame (JBool true);
   initialize_request; initialized_notification;
   JList [ping_request 100; ping_request 101]].

(** The fields of [JSONRPC20Request], with the types it declares. *)
Definition declared_fields (item : json) : option string :=
  match item with
  | JDict d =>
      match assoc "method" d with
      | Some (JStr _) =>
          match assoc "id" d with
          | None | Some JNull | Some (JStr _) | Some (JInt _) => None
          | _ => Some "id: str or int expected"
          end
      | Some _ => Some "method: str type expected"
      | None => Some "method: field required"
      end
  | _ => Some "argument after ** must be a mapping"
  end.

Definition echo_os : OS := {|
  create_subprocess_exec argv _ _ :=
    match argv with
    | "missing" :: _ => Raise (OSError "No such file or directory: 'missing'")
    | _ => Ok {| pid := 4242; returncode := None |}
    end;
  terminate_wait _ := Some (-15)%Z;
  json_loads line := List.find (fun o => String.eqb (dumps o) line) echo_frames;
  json_dumps := dumps;
  JSONRPC20Request_validate := declared_fields;
|}.

Definition echo_descriptor : json :=
  JDict [("name", JStr "echo");
         ("description", JStr "Echo the message back");
         ("inputSchema",
          JDict [("type", JStr "object");
                 ("properties",
                  JDict [("message", JDict [("type", JStr "string")])]);
                 ("required", JList [JStr "message"])])].

Definition docker : Runtime := {|
  container_run cfg :=
    Ok {| executor_port := default 8888%Z cfg.(cfg_executor_port);
          resource_port := default 8900%Z cfg.(cfg_resource_port) |};
  container_kill c :=
    if Z.eqb c.(executor_port) 0 then Some "No such container" else None;
  get_mcp_sources _ _ server_name :=
    if String.eqb server_name "echo" then Ok [("echo", echo_descriptor)]
    else Raise (OSError "no such server");
|}.

Definition default_config : ContainerConfig := {|
  cfg_tag := "ghcr.io/gradion-ai/ipybox"; cfg_binds := []; cfg_env := [];
  cfg_executor_port := None; cfg_resource_port := None;
  cfg_show_pull_progress := false;
|}.

(** A manager with one container, ["c1"], and one execution on it. *)
Definition one_container : ContainerManager.t :=
  ContainerManager.register_execution 5 "c1" "e1"
    (ContainerManager.create_container (runtime := docker) 0 "c1" default_config
       ContainerManager.init).2.

(** The same with a container that cannot be killed. *)
Definition stubborn_container : ContainerManager.t :=
  ContainerManager.register_execution 5 "c1" "e1"
    (ContainerManager.create_container (runtime := docker) 0 "c1"
       {| cfg_tag := "t"; cfg_binds := []; cfg_env := [];
          cfg_executor_port := Some 0%Z; cfg_resource_port := None;
          cfg_show_pull_progress := false |}
       ContainerManager.init).2.

(** A fresh proxy, and a session of it started and stopped again. *)
Definition fresh_proxy : MCPProxy.t := MCPProxy.init 3600 300.

(** An active session of the echo server with two lines queued, and a
    proxy that names it ["s1"]. *)
Definition busy_session : MCPSession.t :=
  MCPSession.set_stdout_queue [dumps progress_frame; dumps (result_frame (JInt 1))]
    (MCPSession.start (os := echo_os) 0
       (MCPSession.init 0 "s1" "c1" "echo" "python" ["echo.py"] None [] 3600)).2.

Definition busy_proxy : MCPProxy.t :=
  MCPProxy.mk 3600 300 {[ "s1" := 0 ]} [busy_session].

(** The body of a batch of two requests. *)
Definition batch_body : string :=
  Eval vm_compute in dumps (JList [ping_request 100; ping_request 101]).

Definition closed_session : MCPSession.t :=
  MCPSession.stop (os := echo_os)
    (MCPSession.start (os := echo_os) 0
       (MCPSession.init 0 "s1" "c1" "echo" "python" ["echo.py"] None [] 3600)).2.


(** The executor of the example: a greeting, a division by zero, an
    exception without a message, a loop that never ends, and a client
    that cannot connect. *)
Definition echo_clients : Clients := {|
  execute _ code _ :=
    if String.eqb code "print('Hello, world!')" then
      inl {| result_text := Some ("Hello, world!" +:+ newline); result_images := 0 |}
    else if String.eqb code "1/0" then
      inr (ExecutionError "ZeroDivisionError: division by zero"
             (Some "Traceback (most recent call last)"))
    else if String.eqb code "raise Exception()" then
      inr (ExecutionError "" (Some "Traceback (most recent call last)"))
    else if String.eqb code "while True: pass" then inr ExecutionTimeout
    else inr (ExecutionFailure (OSError "Cannot connect to host"));
  submit_stream _ code _ :=
    if String.eqb code "for i in range(3): print(i)" then
      (["0" +:+ newline; "1" +:+ newline; "2" +:+ newline], None)
    else if String.eqb code "print(1); 1/0" then
      (["1" +:+ newline],
       Some (ExecutionError "ZeroDivisionError: division by zero" None))
    else ([], Some (ExecutionFailure (OSError "Cannot connect to host")));
  str_error_msg message trace :=
    "{'error': '" +:+ message +:+ "', 'trace': "
    +:+ match trace with Some t => "'" +:+ t +:+ "'" | None => "None" end +:+ "}";
  container_init_firewall _ _ := None;
|}.

(** * Properties *)

(** ** Python values *)

Lemma py_get_dict (d : list (string * json)) (key : string) :
  py_get (JDict d) key = Ok (default JNull (assoc key d)).
Proof. reflexivity. Qed.

Lemma py_get_list (items : list json) (key : string) :
  py_get (JList items) key
  = Raise (AttributeError "'list' object has no attribute 'get'").
Proof. reflexivity. Qed.

(** On strings [==] is equality, and on integers too unless the other
    side is a boolean. *)
Lemma py_eq_str (v : json) (s : string) : py_eq v (JStr s) = true -> v = JStr s.
Proof.
  destruct v; simpl; try discriminate.
  intros E. apply String.eqb_eq in E. by subst.
Qed.

Lemma py_eq_int (v : json) (n : Z) :
  py_eq v (JInt n) = true -> v = JInt n \/ exists b, v = JBool b /\ Z.b2z b = n.
Proof.
  destruct v; simpl; try discriminate; intros E; apply Z.eqb_eq in E.
  - right. eauto.
  - left. by subst.
Qed.

(** ** The session object *)

Section SessionFacts.
Context {os : OS}.

Lemma receive_message_state now s :
  (MCPSession.receive_message now s).2.(MCPSession.state) = s.(MCPSession.state).
Proof.
  unfold MCPSession.receive_message.
  case_bool_decide; [done|].
  destruct (MCPSession.stdout_queue s); [done|].
  by destruct (json_loads _).
Qed.

Lemma send_message_state now message s :
  (MCPSession.send_message now message s).2.(MCPSession.state)
  = s.(MCPSession.state).
Proof. unfold MCPSession.send_message. by case_bool_decide. Qed.

Lemma send_message_ok now message s :
  (MCPSession.send_message now message s).1 = Ok () <->
  s.(MCPSession.state) = ACTIVE.
Proof.
  unfold MCPSession.send_message.
  destruct (decide (MCPSession.state s = ACTIVE)) as [E|E].
  - rewrite bool_decide_eq_false_2; [done|]. by intros [].
  - by rewrite bool_decide_eq_true_2.
Qed.


Lemma stop_finish_state s : (MCPSession.stop_finish s).(MCPSession.state) = CLOSED.
Proof. reflexivity. Qed.

Lemma start_state now s :
  (MCPSession.start now s).2.(MCPSession.state)
  = match create_subprocess_exec (s.(MCPSession.command) :: s.(MCPSession.args))
            s.(MCPSession.working_dir) s.(MCPSession.env) with
    | Ok _ => ACTIVE
    | Raise _ => ERROR
    end.
Proof. unfold MCPSession.start. by destruct (create_subprocess_exec _ _ _). Qed.

Lemma rank_le_sorted_cons a x l :
  rank_le a x -> StronglySorted rank_le (x :: l) ->
  StronglySorted rank_le (a :: x :: l).
Proof.
  intros Hax Hs. constructor; [done|].
  apply StronglySorted_inv in Hs as [_ Hx].
  constructor; [done|].
  eapply Forall_impl; [exact Hx|]. unfold rank_le in *. simpl. lia.
Qed.

(** What an operation other than [start] does to the state. *)
Lemma visited_without_start now o s :
  o <> MCPSession.Start ->
  (MCPSession.visited now o s = [s.(MCPSession.state)] /\
   (MCPSession.run_op now o s).(MCPSession.state) = s.(MCPSession.state)) \/
  (MCPSession.visited now o s = [CLOSING; CLOSED] /\
   (MCPSession.run_op now o s).(MCPSession.state) = CLOSED /\
   s.(MCPSession.state) <> CLOSED /\ s.(MCPSession.state) <> CLOSING).
Proof.
  intros Ho. destruct o as [| message | |]; [done| | |]; simpl.
  - left. by rewrite send_message_state.
  - left. by rewrite receive_message_state.
  - unfold MCPSession.stop. case_bool_decide as Hs; [by left|].
    right. repeat split; [by intros E; apply Hs; left|by intros E; apply Hs; right].
Qed.

End SessionFacts.

(** ** The state machine of a session *)

(** C5, as the code has it: [send_message], [receive_message] and [stop]
    only move a session forward in the order initializing, active, error,
    closing, closed; none of them enters [ERROR]; a closed session stays
    closed under any sequence of them.  [start] tests nothing: in every
    state, [CLOSED] included, it sets [ACTIVE] when the subprocess spawns
    and [ERROR] when it does not. *)
Theorem states_forward_without_start {os : OS} (now : Z)
    (ops : list MCPSession.op) (s : MCPSession.t) :
  Forall (fun o => o <> MCPSession.Start) ops ->
  StronglySorted rank_le (s.(MCPSession.state) :: MCPSession.trace now ops s) /\
  Forall (fun st => st = ERROR -> s.(MCPSession.state) = ERROR)
         (MCPSession.trace now ops s) /\
  (s.(MCPSession.state) = CLOSED ->
   Forall (fun st => st = CLOSED) (MCPSession.trace now ops s) /\
   (MCPSession.run now ops s).(MCPSession.state) = CLOSED) /\
  (forall s' : MCPSession.t,
     (MCPSession.start now s').2.(MCPSession.state)
     = match create_subprocess_exec
               (s'.(MCPSession.command) :: s'.(MCPSession.args))
               s'.(MCPSession.working_dir) s'.(MCPSession.env) with
       | Ok _ => ACTIVE
       | Raise _ => ERROR
       end).
Proof.
  intros Hops. split; [|split; [|split]]; [| | |intros; apply start_state].
  - induction Hops as [|o ops Ho _ IH] in s |- *; simpl.
    { repeat constructor. }
    destruct (visited_without_start now o s Ho)
      as [[-> E]|(-> & E & Hn1 & Hn2)]; simpl.
    + apply rank_le_sorted_cons; [unfold rank_le; lia|]. rewrite <- E. apply IH.
    + specialize (IH (MCPSession.run_op now o s)). rewrite E in IH.
      apply rank_le_sorted_cons;
        [unfold rank_le; destruct (MCPSession.state s); simpl; try lia; done|].
      apply rank_le_sorted_cons; [unfold rank_le; simpl; lia|done].
  - induction Hops as [|o ops Ho _ IH] in s |- *; simpl; [constructor|].
    specialize (IH (MCPSession.run_op now o s)).
    destruct (visited_without_start now o s Ho)
      as [[-> E]|(-> & E & _ & _)]; simpl; rewrite E in IH.
    + constructor; [done|exact IH].
    + repeat (constructor; [done|]).
      eapply Forall_impl; [exact IH|]. simpl. intros st Hst Est.
      by specialize (Hst Est).
  - induction Hops as [|o ops Ho _ IH] in s |- *; simpl; intros Hs.
    { by split; [constructor|]. }
    destruct (visited_without_start now o s Ho)
      as [[-> E]|(_ & _ & Hn & _)]; [|done].
    rewrite Hs in E. destruct (IH _ E) as [IH1 IH2].
    split; [by constructor|exact IH2].
Qed.

Lemma states_forward_without_start_witness :
  MCPSession.trace (os := echo_os) 0
    [MCPSession.SendMessage initialize_request; MCPSession.Stop;
     MCPSession.ReceiveMessage; MCPSession.Stop]
    (MCPSession.start (os := echo_os) 0
       (MCPSession.init 0 "s1" "c1" "echo" "python" ["echo.py"] None [] 3600)).2
  = [ACTIVE; CLOSING; CLOSED; CLOSED; CLOSED] /\
  StronglySorted rank_le
    [ACTIVE; ACTIVE; CLOSING; CLOSED; CLOSED; CLOSED].
Proof.
  split; [reflexivity|].
  exact (proj1 (states_forward_without_start (os := echo_os) 0
    [MCPSession.SendMessage initialize_request; MCPSession.Stop;
     MCPSession.ReceiveMessage; MCPSession.Stop]
    (MCPSession.start (os := echo_os) 0
       (MCPSession.init 0 "s1" "c1" "echo" "python" ["echo.py"] None [] 3600)).2
    ltac:(repeat constructor; discriminate))).
Defined.

(** C5, as worded: a second [start] takes the closed session of the echo
    server back to [ACTIVE]. *)
Lemma closed_session_restarts :
  closed_session.(MCPSession.state) = CLOSED /\
  ~ never_reactivated (os := echo_os) 0 [MCPSession.Start] closed_session.
Proof.
  split; [reflexivity|]. intros Hc. by apply Hc.
Qed.

(** ** The correlator of the proxy *)

Section ProxyFacts.
Context {os : OS}.

Lemma final_response_true request_id response :
  MCPProxy.final_response request_id response = Ok true ->
  MCPProxy.has_id request_id response.
Proof.
  unfold MCPProxy.final_response, MCPProxy.has_id.
  destruct response as [| | | s | l | d]; simpl; try discriminate.
  - case_bool_decide; simpl; discriminate.
  - destruct (existsb _ l); simpl; discriminate.
  - destruct (assoc "id" d) as [v|] eqn:E; simpl; [|discriminate].
    intros [= E']. eauto 6.
Qed.

Lemma timeout_response_has_id request_id :
  MCPProxy.has_id request_id (MCPProxy.timeout_response request_id).
Proof. eexists _, request_id. split; [reflexivity|]. split; [reflexivity|by left]. Qed.


(** With a unit of fuel more than there are queued lines the loop ends. *)
Lemma receive_loop_finishes fuel now request_id session :
  length session.(MCPSession.stdout_queue) < fuel ->
  (MCPProxy.receive_loop fuel now request_id session).1.2 <> MCPProxy.Unfinished.
Proof.
  induction fuel as [|fuel IH] in session |- *; [lia|]. intros Hlen. simpl.
  unfold MCPSession.receive_message.
  case_bool_decide; [done|].
  destruct (MCPSession.stdout_queue session) as [|line q] eqn:Eq; [done|].
  destruct (json_loads line) as [response|]; [|done].
  destruct (MCPProxy.final_response request_id response) as [[|]|e]; [done| |done].
  specialize (IH (MCPSession.set_last_activity now
                    (MCPSession.set_stdout_queue q session))).
  destruct (MCPProxy.receive_loop fuel now request_id _) as [[frames how] s'].
  simpl in *. apply IH. lia.
Qed.

(** A loop left by [break] has yielded a last frame, and that frame
    carries the request id. *)
Lemma receive_loop_last fuel now request_id session frames s' :
  MCPProxy.receive_loop fuel now request_id session
  = (frames, MCPProxy.Broke, s') ->
  exists pre last, frames = pre ++ [last] /\ MCPProxy.has_id request_id last.
Proof.
  induction fuel as [|fuel IH] in session, frames |- *; [done|]. simpl.
  destruct (MCPSession.receive_message now session) as [[response|e] s1].
  - destruct (MCPProxy.final_response request_id response) as [[|]|e] eqn:E.
    + intros [= <- <-]. exists [], response.
      split; [done|by apply final_response_true].
    + destruct (MCPProxy.receive_loop fuel now request_id s1)
        as [[frames' how] s2] eqn:El.
      intros [= <- -> <-]. destruct (IH _ _ El) as (pre & last & -> & Hid).
      by exists (response :: pre), last.
    + done.
  - destruct e; try done. intros [= <- <-].
    exists [], (MCPProxy.timeout_response request_id).
    split; [done|apply timeout_response_has_id].
Qed.


(** The generator always ends: the fuel [forward] gives the loop is
    enough. *)
Lemma handle_mcp_request_ends now uuid4 container_id server_name request_data
    session_id command args p :
  (MCPProxy.handle_mcp_request now uuid4 container_id server_name request_data
     session_id command args p).1.(ending) <> Running.
Proof.
  unfold MCPProxy.handle_mcp_request, MCPProxy.internal_error.
  destruct (MCPProxy.get_or_create_session _ _ _ _ _ _ _ _ _ _)
    as [[[[sid r] session]|e] p'].
  2: { by destruct (py_get request_data "id"). }
  unfold MCPProxy.forward.
  destruct (MCPSession.send_message now request_data session) as [[[]|e] s1] eqn:Es.
  2: { by destruct (py_get request_data "id"). }
  destruct (py_get request_data "method") as [method|e] eqn:Em.
  2: { by destruct (py_get request_data "id"). }
  destruct (py_get request_data "id") as [request_id|e] eqn:Ei; [|done].
  destruct (is_none request_id); [done|].
  match goal with
  | |- context [MCPProxy.receive_loop ?f ?n ?R ?s] =>
      pose proof (receive_loop_finishes f n R s ltac:(lia)) as Hfin;
      destruct (MCPProxy.receive_loop f n R s) as [[frames how] s']
  end.
  simpl in Hfin. by destruct how.
Qed.

End ProxyFacts.



(** C3: once the session is resolved and the frame sent, a request whose
    id is null makes [handle_mcp_request] return without a frame. *)
Theorem notification_yields_nothing {os : OS} (now : Z) (uuid4 : string)
    (container_id server_name : string) (d : list (string * json))
    (session_id command : option string) (args : option (list string))
    (p p' : MCPProxy.t) (sid : string) (r : nat) (session : MCPSession.t) :
  MCPProxy.get_or_create_session now uuid4 container_id server_name session_id
    command args None None p = (Ok (sid, r, session), p') ->
  (MCPSession.send_message now (JDict d) session).1 = Ok () ->
  py_get (JDict d) "id" = Ok JNull ->
  (MCPProxy.handle_mcp_request now uuid4 container_id server_name
     (JDict d) session_id command args p).1
  = {| yielded := []; ending := Returned |}.
Proof.
  intros Hget Hsend Hid.
  unfold MCPProxy.handle_mcp_request. rewrite Hget.
  unfold MCPProxy.forward.
  apply send_message_ok in Hsend as Hst.
  unfold MCPSession.send_message.
  rewrite bool_decide_eq_false_2 by (by intros []).
  rewrite py_get_dict, Hid. reflexivity.
Qed.

Lemma notification_yields_nothing_witness :
  (MCPProxy.handle_mcp_request (os := echo_os) 10 "u" "c1" "echo"
     initialized_notification (Some "s1") None None busy_proxy).1
  = {| yielded := []; ending := Returned |}.
Proof.
  exact (notification_yields_nothing (os := echo_os) 10 "u" "c1" "echo"
    [("jsonrpc", JStr "2.0"); ("method", JStr "notifications/initialized")]
    (Some "s1") None None busy_proxy
    (MCPProxy.set_objects [MCPSession.set_last_activity 10 busy_session] busy_proxy)
    "s1" 0 (MCPSession.set_last_activity 10 busy_session)
    eq_refl eq_refl eq_refl).
Defined.

(** ** The session registry *)

Section RegistryFacts.
Context {os : OS}.

Lemma truthy_Some sid : truthy (Some sid) = true <-> sid <> "".
Proof.
  simpl. destruct (String.eqb_spec sid ""); simpl; split; congruence.
Qed.

(** The creating branch of [get_or_create_session] when the child spawns. *)
Lemma create_session_spawned now uuid4 container_id server_name session_id
    command args working_dir env p proc :
  (forall sid, session_id = Some sid -> sid <> "" ->
     forall r old, MCPProxy.lookup_session p sid = Some (r, old) ->
       old.(MCPSession.container_id) <> container_id \/
       old.(MCPSession.server_name) <> server_name) ->
  create_subprocess_exec
    (default "uvx" command
       :: default ["supergateway"; "--stdio"; "mcp-server-" +:+ server_name] args)
    working_dir (default [] env) = Ok proc ->
  let key := if truthy session_id then default "" session_id
             else "mcp-" +:+ uuid4 in
  let r := length p.(MCPProxy.objects) in
  exists session,
    MCPProxy.get_or_create_session now uuid4 container_id server_name session_id
      command args working_dir env p
    = (Ok (key, r, session),
       MCPProxy.mk p.(MCPProxy.session_timeout) p.(MCPProxy.cleanup_interval)
         (<[key := r]> p.(MCPProxy.sessions)) (p.(MCPProxy.objects) ++ [session])) /\
    session.(MCPSession.session_id) = key /\
    session.(MCPSession.container_id) = container_id /\
    session.(MCPSession.server_name) = server_name /\
    session.(MCPSession.state) = ACTIVE /\
    session.(MCPSession.process) = Some proc.
Proof.
  intros Hmiss Hspawn key r. unfold MCPProxy.get_or_create_session.
  assert ((if truthy session_id then
             sid ← session_id;
             '(r, session) ← MCPProxy.lookup_session p sid;
             if String.eqb session.(MCPSession.container_id) container_id
                && String.eqb session.(MCPSession.server_name) server_name
             then Some (sid, r, session) else None
           else None) = None) as ->.
  { destruct (truthy session_id) eqn:Et; [|done].
    destruct session_id as [sid|]; [|done]. simpl.
    destruct (MCPProxy.lookup_session p sid) as [[r0 old]|] eqn:El; [|done]. simpl.
    destruct (Hmiss sid eq_refl (proj1 (truthy_Some sid) Et) r0 old El) as [E|E];
      apply String.eqb_neq in E; rewrite E; [done|by rewrite andb_false_r]. }
  unfold MCPSession.start, MCPSession.init. simpl. rewrite Hspawn. simpl.
  eexists. split; [reflexivity|]. done.
Qed.

(** A session that the registry does not name is out of the reaper's
    reach. *)
Lemma pop_and_stop_unnamed p sid r :
  (forall sid', p.(MCPProxy.sessions) !! sid' <> Some r) ->
  (MCPProxy.pop_and_stop p sid).(MCPProxy.objects) !! r = p.(MCPProxy.objects) !! r /\
  (forall sid', (MCPProxy.pop_and_stop p sid).(MCPProxy.sessions) !! sid' <> Some r).
Proof.
  intros Hun. unfold MCPProxy.pop_and_stop.
  destruct (MCPProxy.sessions p !! sid) as [r'|] eqn:E; [|done]. simpl. split.
  - apply list_lookup_alter_ne. intros ->. by apply (Hun sid).
  - intros sid' Hs. apply lookup_delete_Some in Hs as [_ Hs]. by apply (Hun sid').
Qed.

Lemma cleanup_unnamed ids p r :
  (forall sid', p.(MCPProxy.sessions) !! sid' <> Some r) ->
  (foldl MCPProxy.pop_and_stop p ids).(MCPProxy.objects) !! r
  = p.(MCPProxy.objects) !! r.
Proof.
  induction ids as [|sid ids IH] in p |- *; [done|]. intros Hun. simpl.
  destruct (pop_and_stop_unnamed p sid r Hun) as [Ho Hs].
  by rewrite IH, Ho.
Qed.

(** The three ways [get_or_create_session] leaves the proxy. *)
Lemma get_or_create_session_shape now uuid4 container_id server_name session_id
    command args working_dir env p :
  let p' := (MCPProxy.get_or_create_session now uuid4 container_id server_name
               session_id command args working_dir env p).2 in
  (p'.(MCPProxy.sessions) = p.(MCPProxy.sessions) /\
   length p'.(MCPProxy.objects) = length p.(MCPProxy.objects)) \/
  (p'.(MCPProxy.sessions) = p.(MCPProxy.sessions) /\
   length p'.(MCPProxy.objects) = S (length p.(MCPProxy.objects))) \/
  (exists key,
     p'.(MCPProxy.sessions) = <[key := length p.(MCPProxy.objects)]> p.(MCPProxy.sessions) /\
     length p'.(MCPProxy.objects) = S (length p.(MCPProxy.objects))).
Proof.
  unfold MCPProxy.get_or_create_session.
  destruct (if truthy session_id then _ else None) as [[[sid r] session]|].
  - left. simpl. by rewrite length_insert.
  - destruct (MCPSession.start now _) as [[|] session]; simpl.
    + right. right. eexists. split; [done|]. rewrite length_app. simpl. lia.
    + right. left. split; [done|]. rewrite length_app. simpl. lia.
Qed.

(** Reachable registries name each object once, and name only objects
    that exist. *)
Lemma init_named_once session_timeout cleanup_interval :
  MCPProxy.named_once (MCPProxy.init session_timeout cleanup_interval) /\
  MCPProxy.names_objects (MCPProxy.init session_timeout cleanup_interval).
Proof. split; intros sid; intros; simplify_map_eq. Qed.

Lemma get_or_create_session_named_once now uuid4 container_id server_name
    session_id command args working_dir env p :
  MCPProxy.named_once p -> MCPProxy.names_objects p ->
  let p' := (MCPProxy.get_or_create_session now uuid4 container_id server_name
               session_id command args working_dir env p).2 in
  MCPProxy.named_once p' /\ MCPProxy.names_objects p'.
Proof.
  intros Hinj Hbound p'.
  destruct (get_or_create_session_shape now uuid4 container_id server_name
              session_id command args working_dir env p)
    as [[Es El]|[[Es El]|(key & Es & El)]]; fold p' in Es, El;
    unfold MCPProxy.named_once, MCPProxy.names_objects; rewrite Es, El.
  - done.
  - split; [done|]. intros sid r Hr. specialize (Hbound sid r Hr). lia.
  - split.
    + intros sid sid' r Hr Hr'.
      apply lookup_insert_Some in Hr as [[<- <-]|[Hne Hr]];
        apply lookup_insert_Some in Hr' as [[<- Hr']|[Hne' Hr']]; try done.
      * specialize (Hbound _ _ Hr'). lia.
      * subst r. specialize (Hbound _ _ Hr). lia.
      * by apply (Hinj sid sid' r).
    + intros sid r Hr. apply lookup_insert_Some in Hr as [[_ <-]|[_ Hr]]; [lia|].
      specialize (Hbound _ _ Hr). lia.
Qed.

Lemma pop_and_stop_named_once p sid :
  MCPProxy.named_once p -> MCPProxy.names_objects p ->
  MCPProxy.named_once (MCPProxy.pop_and_stop p sid) /\
  MCPProxy.names_objects (MCPProxy.pop_and_stop p sid).
Proof.
  intros Hinj Hbound. unfold MCPProxy.pop_and_stop.
  destruct (MCPProxy.sessions p !! sid) as [r|]; [|done]. split.
  - intros a b r' Ha Hb. simpl in Ha, Hb.
    apply lookup_delete_Some in Ha as [_ Ha].
    apply lookup_delete_Some in Hb as [_ Hb]. by apply (Hinj a b r').
  - intros a r' Ha. simpl in *. apply lookup_delete_Some in Ha as [_ Ha].
    rewrite length_alter. by apply (Hbound a).
Qed.

Lemma cleanup_idle_sessions_named_once now p :
  MCPProxy.named_once p -> MCPProxy.names_objects p ->
  MCPProxy.named_once (MCPProxy.cleanup_idle_sessions now p) /\
  MCPProxy.names_objects (MCPProxy.cleanup_idle_sessions now p).
Proof.
  unfold MCPProxy.cleanup_idle_sessions.
  generalize (MCPProxy.idle_sessions now p). intros ids.
  induction ids as [|sid ids IH] in p |- *; [done|]. intros Hinj Hbound. simpl.
  destruct (pop_and_stop_named_once p sid Hinj Hbound) as [H1 H2]. by apply IH.
Qed.

End RegistryFacts.

(** C4, as the code has it: when the child spawns, a call without a
    session id (or with the empty one) registers the new session under
    ["mcp-"] followed by the uuid drawn; a call with a session id that the
    registry lacks registers it under that very id. *)
Theorem new_session_registered {os : OS} (now : Z) (uuid4 : string)
    (container_id server_name : string) (session_id command : option string)
    (args : option (list string)) (working_dir : option string)
    (env : option (list (string * string))) (p : MCPProxy.t) (proc : Process) :
  (forall sid, session_id = Some sid -> p.(MCPProxy.sessions) !! sid = None) ->
  create_subprocess_exec
    (default "uvx" command
       :: default ["supergateway"; "--stdio"; "mcp-server-" +:+ server_name] args)
    working_dir (default [] env) = Ok proc ->
  exists key session p',
    MCPProxy.get_or_create_session now uuid4 container_id server_name session_id
      command args working_dir env p
    = (Ok (key, length p.(MCPProxy.objects), session), p') /\
    p'.(MCPProxy.sessions) = <[key := length p.(MCPProxy.objects)]> p.(MCPProxy.sessions) /\
    p'.(MCPProxy.objects) = p.(MCPProxy.objects) ++ [session] /\
    session.(MCPSession.session_id) = key /\
    session.(MCPSession.state) = ACTIVE /\
    (session_id = None \/ session_id = Some "" -> key = "mcp-" +:+ uuid4) /\
    (forall sid, session_id = Some sid -> sid <> "" -> key = sid).
Proof.
  intros Hmiss Hspawn.
  destruct (create_session_spawned now uuid4 container_id server_name session_id
              command args working_dir env p proc) as (session & E & Hk & _ & _ & Hst & _);
    [|done|].
  { intros sid Es _ r old Hl. unfold MCPProxy.lookup_session in Hl.
    by rewrite (Hmiss sid Es) in Hl. }
  eexists _, session, _. split; [exact E|]. simpl.
  repeat split; [done|done|..].
  - by intros [->| ->].
  - intros sid -> Hne. simpl. by destruct (String.eqb_spec sid "").
Qed.

Lemma new_session_registered_witness :
  (exists session p',
     MCPProxy.get_or_create_session (os := echo_os) 0 "6f1c" "c1" "echo" None
       (Some "python") (Some ["echo.py"]) None None fresh_proxy
     = (Ok ("mcp-6f1c", 0, session), p') /\
     p'.(MCPProxy.sessions) !! "mcp-6f1c" = Some 0) /\
  (exists session p',
     MCPProxy.get_or_create_session (os := echo_os) 0 "6f1c" "c1" "echo" (Some "abc")
       (Some "python") (Some ["echo.py"]) None None fresh_proxy
     = (Ok ("abc", 0, session), p') /\
     p'.(MCPProxy.sessions) !! "abc" = Some 0).
Proof.
  split.
  - destruct (new_session_registered (os := echo_os) 0 "6f1c" "c1" "echo" None
                (Some "python") (Some ["echo.py"]) None None fresh_proxy
                {| pid := 4242; returncode := None |}
                ltac:(discriminate) eq_refl)
      as (key & session & p' & E & Hs & _ & _ & _ & Hk & _).
    rewrite (Hk (or_introl eq_refl)) in E, Hs.
    exists session, p'. split; [exact E|]. rewrite Hs. apply lookup_insert_eq.
  - destruct (new_session_registered (os := echo_os) 0 "6f1c" "c1" "echo" (Some "abc")
                (Some "python") (Some ["echo.py"]) None None fresh_proxy
                {| pid := 4242; returncode := None |}
                ltac:(intros sid _; apply lookup_empty) eq_refl)
      as (key & session & p' & E & Hs & _ & _ & _ & _ & Hk).
    rewrite (Hk "abc" eq_refl ltac:(discriminate)) in E, Hs.
    exists session, p'. split; [exact E|]. rewrite Hs. apply lookup_insert_eq.
Defined.

(** C4, as worded: on a fresh proxy a call with the session id ["abc"]
    registers the new session under ["abc"], not under a minted id. *)
Lemma supplied_id_is_kept :
  ~ registered_under_minted_id (os := echo_os) 0 "6f1c" "c1" "echo" (Some "abc")
      (Some "python") (Some ["echo.py"]) None None fresh_proxy.
Proof.
  intros Hc.
  edestruct Hc as [E _]; [right; by exists "abc"|reflexivity|discriminate E].
Qed.

(** C10: a call with a session id that the registry has for another
    container or server creates and starts a new session and stores it
    under that id.  The session stored before is not stopped: its object
    is as it was, process and tasks included, the registry names it no
    more, and no pass of the reaper reaches it. *)
Theorem mismatched_session_is_orphaned {os : OS} (now : Z) (uuid4 : string)
    (container_id server_name sid : string) (command : option string)
    (args : option (list string)) (working_dir : option string)
    (env : option (list (string * string))) (p : MCPProxy.t)
    (r_old : nat) (old : MCPSession.t) (proc : Process) :
  sid <> "" ->
  p.(MCPProxy.sessions) !! sid = Some r_old ->
  p.(MCPProxy.objects) !! r_old = Some old ->
  old.(MCPSession.container_id) <> container_id \/
    old.(MCPSession.server_name) <> server_name ->
  MCPProxy.named_once p ->
  create_subprocess_exec
    (default "uvx" command
       :: default ["supergateway"; "--stdio"; "mcp-server-" +:+ server_name] args)
    working_dir (default [] env) = Ok proc ->
  exists new p',
    let r_new := length p.(MCPProxy.objects) in
    MCPProxy.get_or_create_session now uuid4 container_id server_name (Some sid)
      command args working_dir env p = (Ok (sid, r_new, new), p') /\
    new.(MCPSession.state) = ACTIVE /\
    new.(MCPSession.process) = Some proc /\
    new.(MCPSession.container_id) = container_id /\
    new.(MCPSession.server_name) = server_name /\
    r_new <> r_old /\
    p'.(MCPProxy.sessions) !! sid = Some r_new /\
    p'.(MCPProxy.objects) !! r_new = Some new /\
    p'.(MCPProxy.objects) !! r_old = Some old /\
    (forall sid', p'.(MCPProxy.sessions) !! sid' <> Some r_old) /\
    (forall now', (MCPProxy.cleanup_idle_sessions now' p').(MCPProxy.objects) !! r_old
                  = Some old).
Proof.
  intros Hsid Hreg Hobj Hmis Hinj Hspawn.
  destruct (create_session_spawned now uuid4 container_id server_name (Some sid)
              command args working_dir env p proc)
    as (new & E & _ & Hc & Hn & Hst & Hp); [|done|].
  { intros sid0 [= <-] _ r old0 Hl. unfold MCPProxy.lookup_session in Hl.
    rewrite Hreg in Hl. simpl in Hl. rewrite Hobj in Hl. simpl in Hl.
    by injection Hl as <- <-. }
  assert (truthy (Some sid) = true) as Ht by by apply truthy_Some.
  rewrite Ht in E. simpl default in E.
  pose proof (lookup_lt_Some _ _ _ Hobj) as Hlt.
  eexists new, _. simpl. split; [exact E|]. simpl.
  assert (forall sid', <[sid := length (MCPProxy.objects p)]> (MCPProxy.sessions p)
                         !! sid' <> Some r_old) as Hun.
  { intros sid' Hs. apply lookup_insert_Some in Hs as [[_ Hs]|[Hne Hs]]; [lia|].
    apply Hne. by apply (Hinj sid sid' r_old). }
  repeat split; try done.
  - lia.
  - apply lookup_insert_eq.
  - by rewrite lookup_app_r, Nat.sub_diag.
  - by rewrite lookup_app_l.
  - intros now'. unfold MCPProxy.cleanup_idle_sessions.
    rewrite cleanup_unnamed by done. simpl. by rewrite lookup_app_l.
Qed.

Lemma mismatched_session_is_orphaned_witness :
  busy_session.(MCPSession.state) = ACTIVE /\
  exists new p',
    MCPProxy.get_or_create_session (os := echo_os) 20 "6f1c" "c2" "echo" (Some "s1")
      (Some "python") (Some ["echo.py"]) None None busy_proxy
    = (Ok ("s1", 1, new), p') /\
    p'.(MCPProxy.sessions) !! "s1" = Some 1 /\
    p'.(MCPProxy.objects) !! 0 = Some busy_session /\
    (forall now', (MCPProxy.cleanup_idle_sessions (os := echo_os) now' p').(MCPProxy.objects)
                    !! 0 = Some busy_session).
Proof.
  split; [reflexivity|].
  destruct (mismatched_session_is_orphaned (os := echo_os) 20 "6f1c" "c2" "echo" "s1"
              (Some "python") (Some ["echo.py"]) None None busy_proxy 0 busy_session
              {| pid := 4242; returncode := None |})
    as (new & p' & E & _ & _ & _ & _ & _ & Hs & _ & Ho & _ & Hr).
  - discriminate.
  - reflexivity.
  - reflexivity.
  - left. discriminate.
  - intros a b r Ha Hb. simpl in Ha, Hb.
    apply lookup_singleton_Some in Ha as [<- _].
    by apply lookup_singleton_Some in Hb as [<- _].
  - reflexivity.
  - by exists new, p'.
Defined.

(** ** The container manager *)

Section ManagerFacts.
Context {runtime : Runtime}.

Lemma purge_idemp container_id m :
  ContainerManager.purge container_id (ContainerManager.purge container_id m)
  = ContainerManager.purge container_id m.
Proof.
  unfold ContainerManager.purge. simpl. f_equal.
  - apply delete_delete_eq.
  - apply delete_delete_eq.
  - by apply map_filter_filter_l.
Qed.

Lemma destroy_container_absent container_id m :
  m.(ContainerManager.containers) !! container_id = None ->
  ContainerManager.destroy_container container_id m
  = (Ok false, ContainerManager.purge container_id m, []).
Proof. intros E. unfold ContainerManager.destroy_container. by rewrite E. Qed.

Lemma destroy_container_present container_id m container :
  m.(ContainerManager.containers) !! container_id = Some container ->
  ContainerManager.destroy_container container_id m
  = (match container_kill container with
     | None => Ok true
     | Some e => Raise (HTTPException HTTP_500_INTERNAL_SERVER_ERROR
                          ("Failed to destroy container: " +:+ e))
     end, ContainerManager.purge container_id m, [container]).
Proof.
  intros E. unfold ContainerManager.destroy_container. rewrite E.
  by destruct (container_kill container).
Qed.

Lemma purge_containers container_id m :
  (ContainerManager.purge container_id m).(ContainerManager.containers)
    !! container_id = None.
Proof. apply lookup_delete_eq. Qed.

Lemma purge_executions container_id m execution_id execution :
  m.(ContainerManager.executions) !! execution_id = Some execution ->
  execution.(exec_container_id) = container_id ->
  (ContainerManager.purge container_id m).(ContainerManager.executions)
    !! execution_id = None.
Proof.
  intros E Hc. simpl. apply map_lookup_filter_None. right.
  intros x Hx. rewrite E in Hx. injection Hx as <-. simpl. by intros Hn.
Qed.

(** The two registries stay in step, so a container is registered in
    one exactly when it is in the other. *)
Lemma init_in_step : ContainerManager.in_step ContainerManager.init.
Proof. intros container_id. simpl. by rewrite !lookup_empty. Qed.

Lemma create_container_in_step now container_id config m :
  ContainerManager.in_step m ->
  ContainerManager.in_step
    (ContainerManager.create_container now container_id config m).2.
Proof.
  intros Hm. unfold ContainerManager.create_container.
  destruct (container_run config) as [container|e]; [|done].
  intros other. simpl. destruct (decide (container_id = other)) as [->|Hne].
  - rewrite !lookup_insert_eq. split; eauto.
  - rewrite !lookup_insert_ne by done. apply Hm.
Qed.

Lemma get_container_in_step now container_id m :
  ContainerManager.in_step m ->
  ContainerManager.in_step (ContainerManager.get_container now container_id m).2.
Proof.
  intros Hm. unfold ContainerManager.get_container,
    ContainerManager.update_container_usage.
  destruct (ContainerManager.containers m !! container_id); [|done]. simpl.
  destruct (ContainerManager.container_info m !! container_id) eqn:Ei; [|done].
  intros other. simpl. destruct (decide (container_id = other)) as [->|Hne].
  - rewrite lookup_insert_eq. rewrite (Hm other), Ei. split; eauto.
  - rewrite lookup_insert_ne by done. apply Hm.
Qed.

Lemma destroy_container_in_step container_id m :
  ContainerManager.in_step m ->
  ContainerManager.in_step
    (ContainerManager.destroy_container container_id m).1.2.
Proof.
  intros Hm.
  assert ((ContainerManager.destroy_container container_id m).1.2
          = ContainerManager.purge container_id m) as ->.
  { unfold ContainerManager.destroy_container.
    destruct (ContainerManager.containers m !! container_id) as [c|]; [|done].
    by destruct (container_kill c). }
  intros other. simpl. destruct (decide (container_id = other)) as [->|Hne].
  - rewrite !lookup_delete_eq. split; by intros [? ?].
  - rewrite !lookup_delete_ne by done. apply Hm.
Qed.

End ManagerFacts.

(** C6, as the code has it: the second of two successive destroys
    returns [False] and raises nothing, leaves the manager as the first
    left it and calls no [kill]; the two calls issue at most one. *)
Theorem second_destroy_returns_false {runtime : Runtime} (container_id : string)
    (m : ContainerManager.t) :
  let '(_, m1, kills1) := ContainerManager.destroy_container container_id m in
  let '(r2, m2, kills2) := ContainerManager.destroy_container container_id m1 in
  r2 = Ok false /\ m2 = m1 /\ kills2 = [] /\ length (kills1 ++ kills2) <= 1.
Proof.
  destruct (ContainerManager.containers m !! container_id) as [c|] eqn:E.
  - rewrite (destroy_container_present _ _ _ E).
    rewrite destroy_container_absent by apply purge_containers.
    rewrite purge_idemp. simpl. repeat split; lia.
  - rewrite (destroy_container_absent _ _ E).
    rewrite destroy_container_absent by apply purge_containers.
    rewrite purge_idemp. simpl. repeat split; lia.
Qed.

(** C6, as worded: destroying ["c1"] a second time returns [False]; no
    NotFound is raised. *)
Lemma second_destroy_is_silent :
  ~ second_destroy_not_found (runtime := docker) "c1" one_container.
Proof.
  unfold second_destroy_not_found.
  rewrite (destroy_container_present (runtime := docker) "c1" one_container
             {| executor_port := 8888; resource_port := 8900 |} eq_refl).
  rewrite destroy_container_absent by apply purge_containers.
  intros [detail Hd]. discriminate Hd.
Qed.

(** C7: when the kill of a registered container fails, [destroy_container]
    raises the 500 error after the purge: the manager it leaves is the
    purged one, in which the info query and the status query of every
    execution the container owned raise 404. *)
Theorem failed_kill_leaves_no_record {runtime : Runtime} (container_id : string)
    (m : ContainerManager.t) (container : ExecutionContainer) (e : string) :
  m.(ContainerManager.containers) !! container_id = Some container ->
  container_kill container = Some e ->
  let '(r, m', kills) := ContainerManager.destroy_container container_id m in
  r = Raise (HTTPException 500 ("Failed to destroy container: " +:+ e)) /\
  (Server.destroy_container container_id m).1.1 = Raise (HTTPException 500
     ("Failed to destroy container: " +:+ e)) /\
  kills = [container] /\
  m' = ContainerManager.purge container_id m /\
  m'.(ContainerManager.containers) !! container_id = None /\
  m'.(ContainerManager.container_info) !! container_id = None /\
  (ContainerManager.get_container_info container_id m').1
  = Raise (HTTPException 404 ("Container " +:+ container_id +:+ " not found")) /\
  (forall execution_id execution,
     m.(ContainerManager.executions) !! execution_id = Some execution ->
     execution.(exec_container_id) = container_id ->
     m'.(ContainerManager.executions) !! execution_id = None /\
     (ContainerManager.get_execution_status execution_id m').1
     = Raise (HTTPException 404 ("Execution " +:+ execution_id +:+ " not found"))).
Proof.
  intros E Hk. unfold Server.destroy_container.
  rewrite (destroy_container_present _ _ _ E), Hk. simpl.
  repeat split; try done.
  - apply lookup_delete_eq.
  - apply lookup_delete_eq.
  - unfold ContainerManager.get_container_info. simpl.
    by rewrite lookup_delete_eq.
  - by eapply (purge_executions container_id m).
  - unfold ContainerManager.get_execution_status.
    by erewrite (purge_executions container_id m).
Qed.

Lemma failed_kill_leaves_no_record_witness :
  let out := ContainerManager.destroy_container (runtime := docker) "c1"
               stubborn_container in
  out.1.1 = Raise (HTTPException 500 "Failed to destroy container: No such container") /\
  (ContainerManager.get_container_info "c1" out.1.2).1
  = Raise (HTTPException 404 "Container c1 not found") /\
  (ContainerManager.get_execution_status "e1" out.1.2).1
  = Raise (HTTPException 404 "Execution e1 not found").
Proof.
  intros out.
  pose proof (failed_kill_leaves_no_record (runtime := docker) "c1"
                stubborn_container {| executor_port := 0; resource_port := 8900 |}
                "No such container" eq_refl eq_refl) as Hw.
  fold out in Hw. destruct out as [[r m'] kills]. simpl.
  destruct Hw as (Hr & _ & _ & _ & _ & _ & Hi & He).
  split; [exact Hr|]. split; [exact Hi|].
  exact (proj2 (He "e1" {| exec_container_id := "c1"; exec_status := "running";
                          exec_created_at := 5; exec_completed_at := None;
                          exec_error := None |} eq_refl eq_refl)).
Defined.

(** C8: on a registered container [get_container] sets [last_used_at]
    to the current time and changes nothing else; [get_container_info]
    and [list_containers] change nothing. *)
Theorem only_get_container_touches (now : Z)
    (container_id : string) (m : ContainerManager.t)
    (container : ExecutionContainer) (info : ContainerInfo) :
  m.(ContainerManager.containers) !! container_id = Some container ->
  m.(ContainerManager.container_info) !! container_id = Some info ->
  let m' := (ContainerManager.get_container now container_id m).2 in
  (ContainerManager.get_container now container_id m).1 = Ok container /\
  m'.(ContainerManager.container_info) !! container_id
  = Some {| id := info.(id); tag := info.(tag);
            info_executor_port := info.(info_executor_port);
            info_resource_port := info.(info_resource_port);
            created_at := info.(created_at); last_used_at := now;
            status := info.(status) |} /\
  (forall other, other <> container_id ->
     m'.(ContainerManager.container_info) !! other
     = m.(ContainerManager.container_info) !! other) /\
  m'.(ContainerManager.containers) = m.(ContainerManager.containers) /\
  m'.(ContainerManager.executions) = m.(ContainerManager.executions) /\
  ContainerManager.get_container_info container_id m = (Ok info, m) /\
  Server.get_container_info container_id m = (Ok info, m) /\
  (ContainerManager.list_containers m).2 = m /\
  (Server.list_containers m).2 = m.
Proof.
  intros Ec Ei m'. subst m'.
  unfold Server.get_container_info, Server.list_containers,
    ContainerManager.get_container, ContainerManager.get_container_info,
    ContainerManager.update_container_usage.
  rewrite Ec, Ei. simpl. repeat split.
  - apply lookup_insert_eq.
  - intros other Hne. by apply lookup_insert_ne.
Qed.

Lemma only_get_container_touches_witness :
  let m' := (ContainerManager.get_container 77 "c1" one_container).2 in
  last_used_at <$> one_container.(ContainerManager.container_info) !! "c1" = Some 0%Z /\
  last_used_at <$> m'.(ContainerManager.container_info) !! "c1" = Some 77%Z /\
  (ContainerManager.get_container_info "c1" one_container).2 = one_container.
Proof.
  intros m'. split; [reflexivity|].
  destruct (only_get_container_touches 77 "c1" one_container
              {| executor_port := 8888; resource_port := 8900 |}
              {| id := "c1"; tag := "ghcr.io/gradion-ai/ipybox";
                 info_executor_port := 8888; info_resource_port := 8900;
                 created_at := 0; last_used_at := 0; status := "running" |}
              eq_refl eq_refl)
    as (_ & Hl & _ & _ & _ & Hi & _).
  fold m' in Hl. rewrite Hl, Hi. done.
Defined.

(** ** The tools endpoint *)

Lemma get_mcp_server_tools_names {runtime : Runtime} (now : Z)
    (container_id server_name relpath : string) (m : ContainerManager.t)
    (container : ExecutionContainer) (sources : list (string * json)) :
  m.(ContainerManager.containers) !! container_id = Some container ->
  get_mcp_sources container.(resource_port) relpath server_name = Ok sources ->
  (Server.get_mcp_server_tools now container_id server_name relpath m).1
  = Ok (JDict [("server_name", JStr server_name);
               ("tools", JList (JStr <$> sources.*1))]).
Proof.
  intros Ec Es. unfold Server.get_mcp_server_tools, ContainerManager.get_container.
  rewrite Ec. simpl. by rewrite Es.
Qed.

(** C9: for the echo server the endpoint answers with the names of the
    tools, the keys of the mapping, where the claim and the repository's
    own test scripts expect the descriptors, its values. *)
Theorem tools_endpoint_returns_names :
  (Server.get_mcp_server_tools (runtime := docker) 9 "c1" "echo" "mcpgen"
     one_container).1
  = Ok (JDict [("server_name", JStr "echo"); ("tools", JList [JStr "echo"])]) /\
  ~ tools_are_descriptors (runtime := docker) 9 "c1" "echo" "mcpgen" one_container.
Proof.
  split; [reflexivity|]. intros Hc.
  discriminate (Hc {| executor_port := 8888; resource_port := 8900 |}
                   [("echo", echo_descriptor)] eq_refl eq_refl).
Qed.

(** ** Batches *)

Section BatchFacts.
Context {os : OS} {runtime : Runtime}.

(** Handed a list, the generator yields nothing and lets the
    [AttributeError] of [request_data.get] escape, whatever the session
    does. *)
Lemma handle_mcp_request_list now uuid4 container_id server_name items
    session_id command args p :
  (MCPProxy.handle_mcp_request now uuid4 container_id server_name (JList items)
     session_id command args p).1
  = {| yielded := [];
       ending := Propagated
                   (AttributeError "'list' object has no attribute 'get'") |}.
Proof.
  unfold MCPProxy.handle_mcp_request.
  destruct (MCPProxy.get_or_create_session _ _ _ _ _ _ _ _ _ _)
    as [[[[sid r] session]|e] p']; [|done].
  unfold MCPProxy.forward.
  destruct (MCPSession.send_message now (JList items) session) as [[[]|e] s']; done.
Qed.

(** In JSON mode the endpoint passes that exception on: a batch that
    decodes and validates gets no response body at all. *)
Lemma mcp_proxy_endpoint_batch now uuid4 container_id server_name body items
    accept mcp_session_id m p container :
  m.(ContainerManager.containers) !! container_id = Some container ->
  json_loads body = Some (JList items) ->
  Forall (fun item => JSONRPC20Request_validate item = None) items ->
  str_contains "text/event-stream" (default "application/json" accept) = false ->
  (Router.mcp_proxy_endpoint now uuid4 container_id server_name body accept
     mcp_session_id m p).1.1
  = Raise (AttributeError "'list' object has no attribute 'get'").
Proof.
  intros Ec Eb Hv Ha. unfold Router.mcp_proxy_endpoint, ContainerManager.get_container.
  rewrite Ec, Eb.
  assert (Router.validate (JList items) = None) as ->.
  { simpl. destruct (list_find _ _) as [[i o]|] eqn:Ef; [|done].
    apply list_find_Some in Ef as (Hl & Ho & _).
    apply list_lookup_fmap_Some in Hl as (item & -> & Hi).
    pose proof (Forall_lookup_1 _ _ _ _ Hv Hi) as Hn. simpl in Hn.
    rewrite Hn in Ho. by destruct Ho. }
  rewrite Ha.
  pose proof (handle_mcp_request_list now uuid4 container_id server_name items
                mcp_session_id None None p) as Hh.
  destruct (MCPProxy.handle_mcp_request _ _ _ _ _ _ _ _ _) as [g p'].
  simpl in Hh. by subst g.
Qed.

End BatchFacts.

(** C1: the batch of two well-formed requests with the ids 100 and 101,
    posted for a live container under [Accept: application/json], is
    answered by no array: the [AttributeError] raised inside the
    generator leaves the endpoint. *)
Theorem batch_raises_attribute_error :
  json_loads (OS := echo_os) batch_body
  = Some (JList [ping_request 100; ping_request 101]) /\
  Forall (fun item => declared_fields item = None) [ping_request 100; ping_request 101] /\
  (Router.mcp_proxy_endpoint (os := echo_os) 9 "6f1c" "c1" "echo" batch_body
     (Some "application/json") None one_container fresh_proxy).1.1
  = Raise (AttributeError "'list' object has no attribute 'get'") /\
  ~ batch_answered (os := echo_os) 9 "6f1c" "c1" "echo" batch_body None
      one_container fresh_proxy.
Proof.
  split; [reflexivity|]. split; [by repeat constructor|].
  assert ((Router.mcp_proxy_endpoint (os := echo_os) 9 "6f1c" "c1" "echo" batch_body
             (Some "application/json") None one_container fresh_proxy).1.1
          = Raise (AttributeError "'list' object has no attribute 'get'")) as E.
  { by eapply (mcp_proxy_endpoint_batch (os := echo_os));
      [reflexivity|reflexivity|repeat constructor|reflexivity]. }
  split; [exact E|].
  intros Hc. destruct (Hc _ eq_refl) as (frames & headers & Hr & _).
  rewrite E in Hr. discriminate Hr.
Qed.

(** ** Sweeps over the containers: the reaper and the shutdown *)

Section DestroyFacts.
Context {runtime : Runtime}.

Lemma destroy_container_purges container_id m :
  (ContainerManager.destroy_container container_id m).1.2
  = ContainerManager.purge container_id m.
Proof.
  unfold ContainerManager.destroy_container.
  destruct (ContainerManager.containers m !! container_id) as [c|]; [|done].
  by destruct (container_kill c).
Qed.

Lemma destroy_container_kills container_id m :
  (ContainerManager.destroy_container container_id m).2
  = option_list (m.(ContainerManager.containers) !! container_id).
Proof.
  unfold ContainerManager.destroy_container.
  destruct (ContainerManager.containers m !! container_id) as [c|]; [|done].
  by destruct (container_kill c).
Qed.

Lemma purge_executions_lookup container_id m execution_id :
  (ContainerManager.purge container_id m).(ContainerManager.executions) !! execution_id
  = e ← m.(ContainerManager.executions) !! execution_id;
    if bool_decide (e.(exec_container_id) = container_id) then None else Some e.
Proof.
  simpl. rewrite map_lookup_filter.
  destruct (ContainerManager.executions m !! execution_id) as [e|]; [|done]. simpl.
  case_bool_decide; case_guard; simpl in *; done.
Qed.

End DestroyFacts.

Section Sweep.
Context {runtime : Runtime}.

(** A loop over container ids that destroys the ids [sel] selects, where
    [sel] looks at the two records of the id only. *)
Variable sel : ContainerManager.t -> string -> bool.
Variable step :
  ContainerManager.t * list ExecutionContainer -> string ->
  ContainerManager.t * list ExecutionContainer.

Hypothesis sel_local : forall m m' container_id,
  m.(ContainerManager.containers) !! container_id
  = m'.(ContainerManager.containers) !! container_id ->
  m.(ContainerManager.container_info) !! container_id
  = m'.(ContainerManager.container_info) !! container_id ->
  sel m container_id = sel m' container_id.

Hypothesis step_spec : forall m kills container_id container,
  m.(ContainerManager.containers) !! container_id = Some container ->
  step (m, kills) container_id
  = if sel m container_id
    then (ContainerManager.purge container_id m, kills ++ [container])
    else (m, kills).

Lemma sweep_spec ids m kills :
  NoDup ids ->
  (forall container_id, container_id ∈ ids ->
     is_Some (m.(ContainerManager.containers) !! container_id)) ->
  let swept := foldl step (m, kills) ids in
  let gone container_id := bool_decide (container_id ∈ ids) && sel m container_id in
  (forall container_id,
     swept.1.(ContainerManager.containers) !! container_id
     = if gone container_id then None
       else m.(ContainerManager.containers) !! container_id) /\
  (forall container_id,
     swept.1.(ContainerManager.container_info) !! container_id
     = if gone container_id then None
       else m.(ContainerManager.container_info) !! container_id) /\
  (forall execution_id,
     swept.1.(ContainerManager.executions) !! execution_id
     = e ← m.(ContainerManager.executions) !! execution_id;
       if gone e.(exec_container_id) then None else Some e) /\
  swept.2 = kills ++ omap (fun container_id =>
                             if sel m container_id
                             then m.(ContainerManager.containers) !! container_id
                             else None) ids.
Proof.
  induction ids as [|a ids IH] in m, kills |- *; intros Hnd Hin; simpl.
  { repeat split; try done.
    - intros eid. by destruct (_ !! eid).
    - by rewrite app_nil_r. }
  apply NoDup_cons in Hnd as [Ha Hnd].
  destruct (Hin a ltac:(set_solver)) as [c Hc].
  rewrite (step_spec m kills a c Hc).
  assert (forall id, id ∈ ids -> id <> a) as Hne by (intros id Hi ->; done).
  destruct (sel m a) eqn:Hsel.
  - (* a is destroyed *)
    set (m1 := ContainerManager.purge a m).
    assert (forall id, id <> a ->
              ContainerManager.containers m1 !! id = ContainerManager.containers m !! id)
      as Hc1 by (intros id Hi; simpl; by rewrite lookup_delete_ne).
    assert (forall id, id <> a ->
              ContainerManager.container_info m1 !! id
              = ContainerManager.container_info m !! id)
      as Hi1 by (intros id Hi; simpl; by rewrite lookup_delete_ne).
    destruct (IH m1 (kills ++ [c]) Hnd) as (IHc & IHi & IHe & IHk).
    { intros id Hi. rewrite Hc1 by auto. apply Hin. set_solver. }
    split; [|split; [|split]].
    + intros id. rewrite IHc. destruct (decide (id = a)) as [->|Hd].
      * rewrite (bool_decide_eq_false_2 (a ∈ ids)) by done.
        rewrite (bool_decide_eq_true_2 (a ∈ a :: ids)) by set_solver.
        rewrite Hsel. simpl. apply lookup_delete_eq.
      * rewrite (sel_local m1 m id) by auto. rewrite Hc1 by done.
        by rewrite (bool_decide_ext (id ∈ ids) (id ∈ a :: ids)) by set_solver.
    + intros id. rewrite IHi. destruct (decide (id = a)) as [->|Hd].
      * rewrite (bool_decide_eq_false_2 (a ∈ ids)) by done.
        rewrite (bool_decide_eq_true_2 (a ∈ a :: ids)) by set_solver.
        rewrite Hsel. simpl. apply lookup_delete_eq.
      * rewrite (sel_local m1 m id) by auto. rewrite Hi1 by done.
        by rewrite (bool_decide_ext (id ∈ ids) (id ∈ a :: ids)) by set_solver.
    + intros eid. rewrite IHe. unfold m1. rewrite purge_executions_lookup.
      destruct (ContainerManager.executions m !! eid) as [e|]; [|done]. simpl.
      case_bool_decide as He; simpl.
      * rewrite He. rewrite (bool_decide_eq_true_2 (a ∈ a :: ids)) by set_solver.
        by rewrite Hsel.
      * rewrite (sel_local (ContainerManager.purge a m) m (exec_container_id e))
          by auto.
        by rewrite (bool_decide_ext (exec_container_id e ∈ ids)
                      (exec_container_id e ∈ a :: ids)) by set_solver.
    + rewrite IHk, Hc. rewrite <- app_assoc. simpl. do 2 f_equal.
      apply list_omap_ext, Forall_Forall2_diag, Forall_forall. intros id Hi.
      rewrite (sel_local m1 m id) by auto. by rewrite Hc1 by auto.
  - (* a is kept *)
    destruct (IH m kills Hnd) as (IHc & IHi & IHe & IHk).
    { intros id Hi. apply Hin. set_solver. }
    split; [|split; [|split]].
    + intros id. rewrite IHc. destruct (decide (id = a)) as [->|Hd].
      * rewrite (bool_decide_eq_false_2 (a ∈ ids)) by done. by rewrite Hsel, !andb_false_r.
      * by rewrite (bool_decide_ext (id ∈ ids) (id ∈ a :: ids)) by set_solver.
    + intros id. rewrite IHi. destruct (decide (id = a)) as [->|Hd].
      * rewrite (bool_decide_eq_false_2 (a ∈ ids)) by done. by rewrite Hsel, !andb_false_r.
      * by rewrite (bool_decide_ext (id ∈ ids) (id ∈ a :: ids)) by set_solver.
    + intros eid. rewrite IHe.
      destruct (ContainerManager.executions m !! eid) as [e|]; [|done]. simpl.
      destruct (decide (exec_container_id e = a)) as [->|Hd].
      * rewrite (bool_decide_eq_false_2 (a ∈ ids)) by done. by rewrite Hsel, !andb_false_r.
      * by rewrite (bool_decide_ext (exec_container_id e ∈ ids)
                      (exec_container_id e ∈ a :: ids)) by set_solver.
    + by rewrite IHk.
Qed.

End Sweep.

Lemma elem_of_keys {A} (m : gmap string A) (k : string) :
  k ∈ (map_to_list m).*1 <-> is_Some (m !! k).
Proof.
  rewrite list_elem_of_fmap. split.
  - intros ([k' x] & -> & Hx). apply elem_of_map_to_list in Hx. eauto.
  - intros [x Hx]. exists (k, x). split; [done|]. by apply elem_of_map_to_list.
Qed.

Section ReaperFacts.
Context {runtime : Runtime}.

Lemma idle_local idle_threshold m m' container_id :
  m.(ContainerManager.containers) !! container_id
  = m'.(ContainerManager.containers) !! container_id ->
  m.(ContainerManager.container_info) !! container_id
  = m'.(ContainerManager.container_info) !! container_id ->
  ContainerManager.idle idle_threshold m container_id
  = ContainerManager.idle idle_threshold m' container_id.
Proof. unfold ContainerManager.idle. by intros -> ->. Qed.

Lemma cleanup_one_spec idle_threshold m kills container_id container :
  m.(ContainerManager.containers) !! container_id = Some container ->
  ContainerManager.cleanup_one idle_threshold (m, kills) container_id
  = if ContainerManager.idle idle_threshold m container_id
    then (ContainerManager.purge container_id m, kills ++ [container])
    else (m, kills).
Proof.
  intros Hc. unfold ContainerManager.cleanup_one, ContainerManager.idle,
    ContainerManager.get_container_info. simpl. rewrite Hc.
  destruct (ContainerManager.container_info m !! container_id) as [info|]; [|done].
  case_bool_decide; [|done].
  pose proof (destroy_container_purges container_id m) as Hp.
  pose proof (destroy_container_kills container_id m) as Hk.
  destruct (ContainerManager.destroy_container container_id m) as [[r m'] killed].
  simpl in Hp, Hk. subst. by rewrite Hc.
Qed.

Lemma idle_is_key idle_threshold m container_id :
  bool_decide (container_id ∈ (map_to_list m.(ContainerManager.containers)).*1)
  && ContainerManager.idle idle_threshold m container_id
  = ContainerManager.idle idle_threshold m container_id.
Proof.
  destruct (ContainerManager.idle idle_threshold m container_id) eqn:E;
    [|by rewrite andb_false_r].
  rewrite bool_decide_eq_true_2; [done|]. apply elem_of_keys.
  unfold ContainerManager.idle in E.
  by destruct (ContainerManager.containers m !! container_id).
Qed.

End ReaperFacts.

(** X1: a pass of the container reaper removes exactly the containers
    last used before [now - max_idle_time]: their handle and info are
    gone and so are the executions they own, [kill] is called on each of
    them once, and every other record is as it was.  A container last
    used at the threshold itself stays. *)
Theorem reaper_removes_exactly_the_idle {runtime : Runtime}
    (now max_idle_time : Z) (m : ContainerManager.t) :
  let idle := ContainerManager.idle (now - max_idle_time) m in
  let out := ContainerManager.cleanup_idle_containers now max_idle_time m in
  (forall container_id,
     out.1.(ContainerManager.containers) !! container_id
     = if idle container_id then None
       else m.(ContainerManager.containers) !! container_id) /\
  (forall container_id,
     out.1.(ContainerManager.container_info) !! container_id
     = if idle container_id then None
       else m.(ContainerManager.container_info) !! container_id) /\
  (forall execution_id,
     out.1.(ContainerManager.executions) !! execution_id
     = e ← m.(ContainerManager.executions) !! execution_id;
       if idle e.(exec_container_id) then None else Some e) /\
  out.2 = omap (fun container_id =>
                  if idle container_id
                  then m.(ContainerManager.containers) !! container_id else None)
               (map_to_list m.(ContainerManager.containers)).*1 /\
  (forall container_id info,
     m.(ContainerManager.container_info) !! container_id = Some info ->
     (now - max_idle_time <= info.(last_used_at))%Z ->
     idle container_id = false).
Proof.
  intros idle out.
  destruct (sweep_spec (ContainerManager.idle (now - max_idle_time))
              (ContainerManager.cleanup_one (now - max_idle_time))
              (idle_local _) (cleanup_one_spec _)
              (map_to_list m.(ContainerManager.containers)).*1 m [])
    as (Hc & Hi & He & Hk).
  { apply NoDup_fst_map_to_list. }
  { intros id. apply elem_of_keys. }
  subst out idle. unfold ContainerManager.cleanup_idle_containers.
  split; [|split; [|split; [|split]]].
  - intros id. by rewrite Hc, idle_is_key.
  - intros id. by rewrite Hi, idle_is_key.
  - intros eid. rewrite He.
    destruct (ContainerManager.executions m !! eid) as [e|]; [|done]. simpl.
    by rewrite idle_is_key.
  - by rewrite Hk.
  - intros id info Ei Hle. unfold ContainerManager.idle. rewrite Ei.
    destruct (ContainerManager.containers m !! id); [|done].
    apply bool_decide_eq_false_2. lia.
Qed.

Lemma omap_lookup_keys {A} (m : gmap string A) :
  omap (fun k => m !! k) (map_to_list m).*1 = (map_to_list m).*2.
Proof.
  assert (Forall (fun kv => m !! kv.1 = Some kv.2) (map_to_list m)) as Hall.
  { apply Forall_forall. intros [k v] Hkv. by apply elem_of_map_to_list. }
  induction Hall as [|[k v] l Hkv _ IH]; [done|].
  simpl in *. rewrite Hkv. simpl. by f_equal.
Qed.

(** X2: at shutdown every container is destroyed, whether its kill
    succeeds or raises: no handle is left, every info and execution of a
    container that had a handle is gone, and [kill] has been called once
    on each handle. *)
Theorem shutdown_destroys_every_container {runtime : Runtime}
    (m : ContainerManager.t) :
  let had container_id :=
    bool_decide (is_Some (m.(ContainerManager.containers) !! container_id)) in
  let out := Server.destroy_all m in
  out.1.(ContainerManager.containers) = ∅ /\
  (forall container_id,
     out.1.(ContainerManager.container_info) !! container_id
     = if had container_id then None
       else m.(ContainerManager.container_info) !! container_id) /\
  (forall execution_id,
     out.1.(ContainerManager.executions) !! execution_id
     = e ← m.(ContainerManager.executions) !! execution_id;
       if had e.(exec_container_id) then None else Some e) /\
  out.2 = (map_to_list m.(ContainerManager.containers)).*2.
Proof.
  intros had out.
  destruct (sweep_spec (fun _ _ => true)
              (fun acc container_id =>
                 let '(_, m, killed) :=
                   ContainerManager.destroy_container container_id acc.1 in
                 (m, acc.2 ++ killed))
              (fun _ _ _ _ _ => eq_refl)) with
    (ids := (map_to_list m.(ContainerManager.containers)).*1) (m := m)
    (kills := @nil ExecutionContainer)
    as (Hc & Hi & He & Hk).
  { intros m0 kills id c Hid. simpl.
    pose proof (destroy_container_purges id m0) as Hp.
    pose proof (destroy_container_kills id m0) as Hkk.
    destruct (ContainerManager.destroy_container id m0) as [[r m'] killed].
    simpl in Hp, Hkk. subst. by rewrite Hid. }
  { apply NoDup_fst_map_to_list. }
  { intros id. apply elem_of_keys. }
  assert (forall id,
            bool_decide (id ∈ (map_to_list (ContainerManager.containers m)).*1) && true
            = had id) as Hhad.
  { intros id. rewrite andb_true_r. apply bool_decide_ext, elem_of_keys. }
  subst out. unfold Server.destroy_all.
  split; [|split; [|split]].
  - apply map_eq. intros id. rewrite Hc, Hhad, lookup_empty. unfold had.
    case_bool_decide as Hs; [done|]. by apply eq_None_not_Some.
  - intros id. by rewrite Hi, Hhad.
  - intros eid. rewrite He.
    destruct (ContainerManager.executions m !! eid) as [e|]; [|done]. simpl.
    by rewrite Hhad.
  - rewrite Hk. simpl. apply omap_lookup_keys.
Qed.

(** ** What every sequence of requests keeps *)

Section InvariantFacts.
Context {runtime : Runtime} {clients : Clients}.

Lemma get_container_frame now container_id m :
  (ContainerManager.get_container now container_id m).2.(ContainerManager.containers)
  = m.(ContainerManager.containers) /\
  (ContainerManager.get_container now container_id m).2.(ContainerManager.executions)
  = m.(ContainerManager.executions).
Proof.
  unfold ContainerManager.get_container, ContainerManager.update_container_usage.
  destruct (ContainerManager.containers m !! container_id); [|done]. simpl.
  by destruct (ContainerManager.container_info m !! container_id).
Qed.

Lemma get_container_Ok now container_id m container :
  (ContainerManager.get_container now container_id m).1 = Ok container ->
  m.(ContainerManager.containers) !! container_id = Some container.
Proof.
  unfold ContainerManager.get_container.
  destruct (ContainerManager.containers m !! container_id); simpl; congruence.
Qed.

Lemma get_container_Raise now container_id m e :
  (ContainerManager.get_container now container_id m).1 = Raise e ->
  m.(ContainerManager.containers) !! container_id = None /\
  e = HTTPException 404 ("Container " +:+ container_id +:+ " not found") /\
  (ContainerManager.get_container now container_id m).2 = m.
Proof.
  unfold ContainerManager.get_container.
  destruct (ContainerManager.containers m !! container_id); simpl; [done|].
  by intros [= <-].
Qed.

Lemma get_container_sound now container_id m :
  ContainerManager.sound m ->
  ContainerManager.sound (ContainerManager.get_container now container_id m).2.
Proof.
  intros (Hs & Ho & He).
  destruct (get_container_frame now container_id m) as [Ec Ee].
  split; [by apply get_container_in_step|].
  unfold ContainerManager.owned. rewrite Ec, Ee. by split.
Qed.

Lemma create_container_sound now container_id config m :
  ContainerManager.sound m ->
  ContainerManager.sound
    (ContainerManager.create_container now container_id config m).2.
Proof.
  intros (Hs & Ho & He). split; [by apply create_container_in_step|].
  unfold ContainerManager.create_container.
  destruct (container_run config) as [container|e]; [|done]. simpl.
  split; [|done]. intros eid ex Hex. simpl in *.
  destruct (decide (container_id = exec_container_id ex)) as [->|Hne].
  - rewrite lookup_insert_eq. eauto.
  - rewrite lookup_insert_ne by done. by apply (Ho eid).
Qed.

Lemma purge_sound container_id m :
  ContainerManager.sound m ->
  ContainerManager.sound (ContainerManager.purge container_id m).
Proof.
  intros (Hs & Ho & He). split; [|split].
  - rewrite <- (destroy_container_purges container_id m).
    by apply destroy_container_in_step.
  - intros eid ex Hex. rewrite purge_executions_lookup in Hex.
    destruct (ContainerManager.executions m !! eid) as [e|] eqn:Ee; [|done].
    simpl in Hex. case_bool_decide as Hd; [done|]. injection Hex as <-.
    simpl. rewrite lookup_delete_ne by done. by apply (Ho eid).
  - intros eid ex Hex. rewrite purge_executions_lookup in Hex.
    destruct (ContainerManager.executions m !! eid) as [e|] eqn:Ee; [|done].
    simpl in Hex. case_bool_decide; [done|]. injection Hex as <-.
    by apply (He eid).
Qed.

Lemma register_execution_sound now container_id execution_id m :
  ContainerManager.sound m ->
  is_Some (m.(ContainerManager.containers) !! container_id) ->
  ContainerManager.sound
    (ContainerManager.register_execution now container_id execution_id m).
Proof.
  intros (Hs & Ho & He) Hc. split; [done|]. split.
  - intros eid ex Hex. simpl in *.
    apply lookup_insert_Some in Hex as [[_ <-]|[_ Hex]]; [done|].
    by apply (Ho eid).
  - intros eid ex Hex. simpl in *.
    apply lookup_insert_Some in Hex as [[_ <-]|[_ Hex]]; [by left|].
    by apply (He eid).
Qed.

Lemma complete_execution_sound now execution_id error m :
  ContainerManager.sound m ->
  (forall e, m.(ContainerManager.executions) !! execution_id = Some e ->
             e.(exec_error) = None) ->
  ContainerManager.sound
    (ContainerManager.complete_execution now execution_id error m).
Proof.
  intros (Hs & Ho & He) Hfresh. unfold ContainerManager.complete_execution.
  destruct (ContainerManager.executions m !! execution_id) as [e|] eqn:Ee; [|done].
  split; [done|]. split.
  - intros eid ex Hex. simpl in *.
    apply lookup_insert_Some in Hex as [[_ <-]|[_ Hex]];
      [simpl; by apply (Ho execution_id e)|].
    by apply (Ho eid).
  - intros eid ex Hex. simpl in *.
    apply lookup_insert_Some in Hex as [[_ <-]|[_ Hex]]; [|by apply (He eid)].
    destruct (truthy error) eqn:Et.
    + right. right. simpl. split; [done|]. split; [eauto|].
      destruct error as [message|]; [|done]. exists message. split; [done|].
      by apply truthy_Some.
    + right. left. simpl. split; [done|]. split; [eauto|]. by apply Hfresh.
Qed.

Lemma registered_is_fresh now container_id execution_id m e :
  (ContainerManager.register_execution now container_id execution_id m)
    .(ContainerManager.executions) !! execution_id = Some e ->
  e.(exec_error) = None.
Proof. simpl. rewrite lookup_insert_eq. by intros [= <-]. Qed.

Lemma cleanup_one_sound idle_threshold acc container_id :
  ContainerManager.sound acc.1 ->
  ContainerManager.sound
    (ContainerManager.cleanup_one idle_threshold acc container_id).1.
Proof.
  destruct acc as [m kills]. simpl. intros Hm.
  destruct (ContainerManager.containers m !! container_id) as [c|] eqn:Ec.
  - rewrite (cleanup_one_spec _ _ _ _ _ Ec).
    destruct (ContainerManager.idle _ _ _); [|done]. by apply purge_sound.
  - unfold ContainerManager.cleanup_one, ContainerManager.get_container_info. simpl.
    destruct Hm as (Hs & ?). 
    destruct (ContainerManager.container_info m !! container_id) as [info|] eqn:Ei.
    + assert (is_Some (ContainerManager.containers m !! container_id)) as [? ?]
        by (apply Hs; eauto). congruence.
    + done.
Qed.

Lemma cleanup_idle_containers_sound now max_idle_time m :
  ContainerManager.sound m ->
  ContainerManager.sound
    (ContainerManager.cleanup_idle_containers now max_idle_time m).1.
Proof.
  unfold ContainerManager.cleanup_idle_containers.
  generalize (map_to_list (ContainerManager.containers m)).*1. intros ids.
  change m with (m, @nil ExecutionContainer).1 at 1.
  generalize (m, @nil ExecutionContainer). clear m.
  induction ids as [|a ids IH]; intros acc Hacc; [done|]. simpl.
  apply IH. by apply cleanup_one_sound.
Qed.

Lemma serve_sound m timed :
  ContainerManager.sound m -> ContainerManager.sound (Server.serve m timed).
Proof.
  intros Hm. destruct timed as [now r]. unfold Server.serve. simpl.
  destruct r as [cid config| |cid|cid|cid domains|fin eid cid code timeout
                 |fin eid cid code timeout|eid|cid sname relpath|max_idle].
  - unfold Server.create_container.
    pose proof (create_container_sound now cid config m Hm) as Hc.
    destruct (ContainerManager.create_container now cid config m) as [[id|e] m1];
      [|done].
    simpl in Hc. unfold ContainerManager.get_container_info.
    by destruct (ContainerManager.container_info m1 !! id).
  - done.
  - unfold Server.get_container_info, ContainerManager.get_container_info.
    by destruct (ContainerManager.container_info m !! cid).
  - unfold Server.destroy_container.
    pose proof (destroy_container_purges cid m) as Hp.
    destruct (ContainerManager.destroy_container cid m) as [[[?|?] m1] kills];
      simpl in *; subst; by apply purge_sound.
  - unfold Server.init_firewall.
    pose proof (get_container_sound now cid m Hm) as Hg.
    destruct (ContainerManager.get_container now cid m) as [[c|e] m1]; [|done].
    by destruct (container_init_firewall c domains).
  - unfold Server.execute_code.
    pose proof (get_container_sound now cid m Hm) as Hg.
    pose proof (get_container_Ok now cid m) as Hok.
    destruct (get_container_frame now cid m) as [Ec _].
    destruct (ContainerManager.get_container now cid m) as [[c|e] m1]; [|done].
    simpl in *. specialize (Hok c eq_refl).
    assert (ContainerManager.sound (ContainerManager.register_execution now cid eid m1))
      as Hr by (apply register_execution_sound; [done|rewrite Ec; eauto]).
    destruct (execute (executor_port c) code timeout) as [res|[msg tr| |e]]; simpl;
      (apply complete_execution_sound; [done|apply registered_is_fresh]).
  - unfold Server.execute_code_stream.
    pose proof (get_container_sound now cid m Hm) as Hg.
    pose proof (get_container_Ok now cid m) as Hok.
    destruct (get_container_frame now cid m) as [Ec _].
    destruct (ContainerManager.get_container now cid m) as [[c|e] m1]; [|done].
    simpl in *. specialize (Hok c eq_refl).
    assert (ContainerManager.sound (ContainerManager.register_execution now cid eid m1))
      as Hr by (apply register_execution_sound; [done|rewrite Ec; eauto]).
    destruct (submit_stream (executor_port c) code timeout) as [chunks [[msg tr| |e]|]];
      simpl; (apply complete_execution_sound; [done|apply registered_is_fresh]).
  - unfold Server.get_execution_status, ContainerManager.get_execution_status.
    by destruct (ContainerManager.executions m !! eid).
  - unfold Server.get_mcp_server_tools.
    pose proof (get_container_sound now cid m Hm) as Hg.
    destruct (ContainerManager.get_container now cid m) as [[c|e] m1]; [|done].
    by destruct (get_mcp_sources _ _ _).
  - by apply cleanup_idle_containers_sound.
Qed.

End InvariantFacts.

(** X3: whatever requests are served, one after the other, from the
    empty manager, the manager stays sound: a container has a handle
    exactly when it has an info, every execution record belongs to a
    registered container, and every execution record is running without
    completion time, or completed with one, or in error with one and a
    message that is not empty. *)
Theorem served_manager_is_sound {runtime : Runtime} {clients : Clients}
    (requests : list (Z * Server.request)) :
  ContainerManager.sound (foldl Server.serve ContainerManager.init requests).
Proof.
  assert (ContainerManager.sound ContainerManager.init) as Hinit.
  { split; [apply init_in_step|]. split; intros eid e He; simpl in He;
      by rewrite lookup_empty in He. }
  revert Hinit. generalize ContainerManager.init.
  induction requests as [|timed requests IH]; intros m Hm; [done|].
  simpl. apply IH. by apply serve_sound.
Qed.

Section ClockFacts.
Context {runtime : Runtime} {clients : Clients}.














End ClockFacts.



(** ** Code execution *)

(** X5: executing code in a registered container leaves one record for
    the execution, created at the time of the call and completed when it
    is done; the record is in error exactly when the fault has a message
    that is not empty, and completed otherwise, also for a fault whose
    message is empty.  Only an exception that is neither an
    [ExecutionError] nor a timeout is answered with a 500. *)
Theorem execute_code_completes_the_record {clients : Clients}
    (now finished : Z) (execution_id container_id code : string) (timeout : Z)
    (m : ContainerManager.t) (container : ExecutionContainer) :
  m.(ContainerManager.containers) !! container_id = Some container ->
  let out := Server.execute_code now finished execution_id container_id code
               timeout m in
  let outcome := execute container.(executor_port) code timeout in
  let error := match outcome with
               | inl _ => None
               | inr fault => Some (fault_message fault)
               end in
  let execution :=
    {| exec_container_id := container_id;
       exec_status := if truthy error then "error" else "completed";
       exec_created_at := now; exec_completed_at := Some finished;
       exec_error := if truthy error then error else None |} in
  out.2.(ContainerManager.executions)
  = <[execution_id := execution]> m.(ContainerManager.executions) /\
  out.2.(ContainerManager.containers) = m.(ContainerManager.containers) /\
  (Server.get_execution_status execution_id out.2).1
  = Ok {| es_execution_id := execution_id; es_container_id := container_id;
          es_status := execution.(exec_status); es_created_at := now;
          es_completed_at := Some finished; es_error := execution.(exec_error) |} /\
  match outcome with
  | inr (ExecutionFailure e) =>
      out.1 = Raise (HTTPException 500 ("Failed to execute code: " +:+ str_exn e))
  | _ =>
      exists response,
        out.1 = Ok response /\
        response.(cer_execution_id) = execution_id /\
        response.(cer_error) = error /\
        response.(cer_completed) = true
  end.
Proof.
  intros Hc out outcome error execution. subst out outcome error execution.
  unfold Server.execute_code, Server.get_execution_status,
    ContainerManager.get_execution_status.
  destruct (get_container_frame now container_id m) as [Ec Ee].
  pose proof (get_container_Ok now container_id m) as Hok.
  destruct (ContainerManager.get_container now container_id m) as [[c|e] m1] eqn:Eg.
  2: { unfold ContainerManager.get_container in Eg. by rewrite Hc in Eg. }
  simpl in Ec, Ee. specialize (Hok c eq_refl). rewrite Hc in Hok. injection Hok as <-.
  destruct (execute (executor_port container) code timeout) as [res|[msg tr| |e]];
    unfold ContainerManager.complete_execution; simpl;
    rewrite !lookup_insert_eq; simpl; rewrite ?lookup_insert_eq; simpl;
    rewrite ?insert_insert_eq, Ee, Ec.
  - repeat split; eauto.
  - destruct (String.eqb msg ""); simpl; repeat split; eauto.
  - repeat split; eauto.
  - destruct (String.eqb (str_exn e) ""); simpl; repeat split; eauto.
Qed.

Lemma execute_code_completes_the_record_witness :
  (exec_status <$>
     (Server.execute_code (clients := echo_clients) 10 12
        "e2" "c1" "1/0" 120 one_container).2.(ContainerManager.executions) !! "e2")
  = Some "error" /\
  (exec_status <$>
     (Server.execute_code (clients := echo_clients) 10 12
        "e2" "c1" "raise Exception()" 120 one_container).2
       .(ContainerManager.executions) !! "e2")
  = Some "completed".
Proof.
  split.
  - destruct (execute_code_completes_the_record (clients := echo_clients) 10 12 "e2" "c1" "1/0" 120 one_container
                {| executor_port := 8888; resource_port := 8900 |} eq_refl)
      as (He & _).
    rewrite He. by rewrite lookup_insert_eq.
  - destruct (execute_code_completes_the_record (clients := echo_clients) 10 12 "e2" "c1" "raise Exception()" 120
                one_container
                {| executor_port := 8888; resource_port := 8900 |} eq_refl)
      as (He & _).
    rewrite He. by rewrite lookup_insert_eq.
Defined.



(** ** Unknown and new containers *)

(** X7: every route that works on a container answers an id without a
    handle with the 404 of [get_container], and leaves the manager and
    the proxy as they were: no execution is registered, no session is
    created, nothing is touched. *)
Theorem unknown_container_is_not_found {os : OS} {runtime : Runtime}
    {clients : Clients} (now finished : Z)
    (container_id execution_id code server_name relpath uuid4 body : string)
    (timeout : Z) (allowed_domains : list string)
    (accept mcp_session_id : option string)
    (m : ContainerManager.t) (p : MCPProxy.t) :
  m.(ContainerManager.containers) !! container_id = None ->
  let not_found : exn :=
    HTTPException 404 ("Container " +:+ container_id +:+ " not found") in
  Server.execute_code now finished execution_id container_id code timeout m
  = (Raise not_found, m) /\
  Server.execute_code_stream now finished execution_id container_id code timeout m
  = (Raise not_found, m) /\
  Server.init_firewall now container_id allowed_domains m = (Raise not_found, m) /\
  Server.get_mcp_server_tools now container_id server_name relpath m
  = (Raise not_found, m) /\
  Router.mcp_proxy_endpoint now uuid4 container_id server_name body accept
    mcp_session_id m p = (Raise not_found, m, p).
Proof.
  intros Hc not_found.
  unfold Server.execute_code, Server.execute_code_stream, Server.init_firewall,
    Server.get_mcp_server_tools, Router.mcp_proxy_endpoint,
    ContainerManager.get_container.
  by rewrite Hc.
Qed.

Lemma unknown_container_is_not_found_witness :
  Server.execute_code (clients := echo_clients) 10 12 "e2" "c9" "1/0" 120 one_container
  = (Raise (HTTPException 404 "Container c9 not found"), one_container).
Proof.
  exact (proj1 (unknown_container_is_not_found (os := echo_os) (runtime := docker)
                  (clients := echo_clients) 10 12 "c9" "e2" "1/0" "echo" "mcpgen"
                  "6f1c" "{}" 120 [] None None one_container fresh_proxy eq_refl)).
Defined.


(** ** The registry of the proxy over time *)

Section ReachableProxy.
Context {os : OS}.

(** How [get_or_create_session] ends: the session found is touched, or
    a new session is started and registered, or the start fails and
    nothing is registered. *)
Lemma get_or_create_session_cases now uuid4 container_id server_name session_id
    command args working_dir env p :
  let out := MCPProxy.get_or_create_session now uuid4 container_id server_name
               session_id command args working_dir env p in
  (exists key r s,
     session_id = Some key /\ key <> "" /\
     MCPProxy.lookup_session p key = Some (r, s) /\
     s.(MCPSession.container_id) = container_id /\
     s.(MCPSession.server_name) = server_name /\
     out = (Ok (key, r, MCPSession.set_last_activity now s),
            MCPProxy.set_objects
              (<[r := MCPSession.set_last_activity now s]> p.(MCPProxy.objects)) p)) \/
  (exists key new,
     out = (Ok (key, length p.(MCPProxy.objects), new),
            MCPProxy.mk p.(MCPProxy.session_timeout) p.(MCPProxy.cleanup_interval)
              (<[key := length p.(MCPProxy.objects)]> p.(MCPProxy.sessions))
              (p.(MCPProxy.objects) ++ [new])) /\
     new.(MCPSession.session_id) = key /\
     new.(MCPSession.state) = ACTIVE /\
     new.(MCPSession.stdout_queue) = []) \/
  (exists new,
     out = (Raise (HTTPException 500
                     ("Failed to start MCP session for server " +:+ server_name)),
            MCPProxy.set_objects (p.(MCPProxy.objects) ++ [new]) p) /\
     new.(MCPSession.state) = ERROR).
Proof.
  intros out. subst out. unfold MCPProxy.get_or_create_session.
  destruct (if truthy session_id then _ else None) as [[[key r] s0]|] eqn:Ef.
  - left. destruct (truthy session_id) eqn:Et; [|done].
    destruct session_id as [sid|]; [|done]. simpl in Ef.
    destruct (MCPProxy.lookup_session p sid) as [[r0 s1]|] eqn:El; [|done].
    simpl in Ef.
    destruct (String.eqb (MCPSession.container_id s1) container_id) eqn:E1; [|done].
    destruct (String.eqb (MCPSession.server_name s1) server_name) eqn:E2; [|done].
    simpl in Ef. injection Ef as <- <- <-.
    apply String.eqb_eq in E1, E2. apply truthy_Some in Et.
    exists sid, r0, s1. by repeat split.
  - right. unfold MCPSession.start, MCPSession.init. simpl.
    destruct (create_subprocess_exec _ _ _) as [proc|e]; simpl.
    + left. eexists _, _. by repeat split.
    + right. eexists. by split.
Qed.

Lemma receive_loop_keeps fuel now request_id session :
  let s' := (MCPProxy.receive_loop fuel now request_id session).2 in
  s'.(MCPSession.session_id) = session.(MCPSession.session_id) /\
  s'.(MCPSession.state) = session.(MCPSession.state) /\
  s'.(MCPSession.initialized) = session.(MCPSession.initialized) /\
  s'.(MCPSession.stdin_queue) = session.(MCPSession.stdin_queue).
Proof.
  induction fuel as [|fuel IH] in session |- *; [done|]. simpl.
  unfold MCPSession.receive_message.
  case_bool_decide; [done|].
  destruct (MCPSession.stdout_queue session) as [|line q]; [done|].
  destruct (json_loads line) as [response|]; [|done].
  destruct (MCPProxy.final_response request_id response) as [[|]|e]; [done| |done].
  specialize (IH (MCPSession.set_last_activity now
                    (MCPSession.set_stdout_queue q session))).
  by destruct (MCPProxy.receive_loop fuel now request_id _) as [[frames how] s'].
Qed.

Lemma forward_keeps now request_data session :
  let s' := (MCPProxy.forward now request_data session).2 in
  s'.(MCPSession.session_id) = session.(MCPSession.session_id) /\
  s'.(MCPSession.state) = session.(MCPSession.state).
Proof.
  unfold MCPProxy.forward, MCPSession.send_message.
  case_bool_decide; [done|].
  destruct (py_get request_data "method") as [method|e]; [|done].
  destruct (py_get request_data "id") as [request_id|e];
    [|by destruct (py_eq method _)].
  destruct (is_none request_id); [by destruct (py_eq method _)|].
  match goal with
  | |- context [MCPProxy.receive_loop ?f ?n ?R ?s] =>
      destruct (receive_loop_keeps f n R s) as (H1 & H2 & _)
  end.
  simpl in *. rewrite H1, H2. by destruct (py_eq method _).
Qed.

Lemma get_or_create_session_registry_ok now uuid4 container_id server_name
    session_id command args working_dir env p :
  MCPProxy.registry_ok p ->
  MCPProxy.registry_ok
    (MCPProxy.get_or_create_session now uuid4 container_id server_name session_id
       command args working_dir env p).2.
Proof.
  intros (Hinj & Hbound & Hact).
  destruct (get_or_create_session_named_once now uuid4 container_id server_name
              session_id command args working_dir env p Hinj Hbound) as [Hinj' Hbound'].
  split; [done|]. split; [done|]. clear Hinj' Hbound'.
  destruct (get_or_create_session_cases now uuid4 container_id server_name
              session_id command args working_dir env p)
    as [(key & r & s & _ & _ & Hl & _ & _ & E)
       |[(key & new & E & Hk & Hst & _)|(new & E & _)]]; simpl in E; rewrite E; simpl.
  - intros sid r' s' Hr Ho. simpl in *.
    unfold MCPProxy.lookup_session in Hl.
    destruct (MCPProxy.sessions p !! key) as [r0|] eqn:Ek; [|done]. simpl in Hl.
    destruct (MCPProxy.objects p !! r0) as [s0|] eqn:Eo; [|done].
    simpl in Hl. injection Hl as <- <-.
    destruct (decide (r' = r0)) as [->|Hne].
    + rewrite list_lookup_insert_eq in Ho by by eapply lookup_lt_Some.
      injection Ho as <-. simpl. by apply (Hact sid r0).
    + rewrite list_lookup_insert_ne in Ho by done. by apply (Hact sid r').
  - intros sid r' s' Hr Ho. simpl in *.
    apply lookup_insert_Some in Hr as [[<- <-]|[Hne Hr]].
    + rewrite lookup_app_r, Nat.sub_diag in Ho by done. by injection Ho as <-.
    + rewrite lookup_app_l in Ho by by apply (Hbound sid). by apply (Hact sid r').
  - intros sid r' s' Hr Ho. simpl in *.
    rewrite lookup_app_l in Ho by by apply (Hbound sid). by apply (Hact sid r').
Qed.

Lemma handle_mcp_request_registry_ok now uuid4 container_id server_name
    request_data session_id command args p :
  MCPProxy.registry_ok p ->
  MCPProxy.registry_ok
    (MCPProxy.handle_mcp_request now uuid4 container_id server_name request_data
       session_id command args p).2.
Proof.
  intros Hp.
  pose proof (get_or_create_session_registry_ok now uuid4 container_id server_name
                session_id command args None None p Hp) as Hp1.
  pose proof (get_or_create_session_cases now uuid4 container_id server_name
                session_id command args None None p) as Hcases.
  unfold MCPProxy.handle_mcp_request.
  destruct (MCPProxy.get_or_create_session _ _ _ _ _ _ _ _ _ _)
    as [[[[key r] session]|e] p1] eqn:Eg; [|done].
  simpl in Hp1, Hcases.
  assert (MCPProxy.objects p1 !! r = Some session) as Hobj.
  { destruct Hcases as [(k & r0 & s & _ & _ & Hl & _ & _ & [= -> -> -> ->])
                       |[(k & new & [= -> -> -> ->] & _)|(new & [=] & _)]]; simpl.
    - unfold MCPProxy.lookup_session in Hl.
      destruct (MCPProxy.sessions p !! k) as [r1|]; [|done]. simpl in Hl.
      destruct (MCPProxy.objects p !! r1) as [s1|] eqn:Eo; [|done].
      simpl in Hl. injection Hl as <- <-.
      apply list_lookup_insert_eq. by eapply lookup_lt_Some.
    - by rewrite lookup_app_r, Nat.sub_diag. }
  destruct (forward_keeps now request_data session) as [Hk1 Hk2].
  destruct (MCPProxy.forward now request_data session) as [[frames how] s'].
  simpl in Hk1, Hk2.
  assert (MCPProxy.registry_ok
            (MCPProxy.set_objects (<[r:=s']> (MCPProxy.objects p1)) p1)) as Hok.
  { destruct Hp1 as (Hinj & Hbound & Hact). split; [done|]. split.
    - intros sid r' Hr. simpl. rewrite length_insert. by apply (Hbound sid).
    - intros sid r' s0 Hr Ho. simpl in *.
      destruct (decide (r' = r)) as [->|Hne].
      + rewrite list_lookup_insert_eq in Ho by by eapply lookup_lt_Some.
        injection Ho as <-. rewrite Hk1, Hk2. by apply (Hact sid r).
      + rewrite list_lookup_insert_ne in Ho by done. by apply (Hact sid r'). }
  by destruct how.
Qed.

Lemma pop_and_stop_registry_ok p sid :
  MCPProxy.registry_ok p -> MCPProxy.registry_ok (MCPProxy.pop_and_stop p sid).
Proof.
  intros (Hinj & Hbound & Hact).
  destruct (pop_and_stop_named_once p sid Hinj Hbound) as [Hinj' Hbound'].
  split; [done|]. split; [done|].
  unfold MCPProxy.pop_and_stop.
  destruct (MCPProxy.sessions p !! sid) as [r|] eqn:Es; [|done].
  intros sid' r' s' Hr Ho. simpl in *.
  apply lookup_delete_Some in Hr as [Hne Hr].
  rewrite list_lookup_alter_ne in Ho; [by apply (Hact sid' r')|].
  intros ->. apply Hne. by apply (Hinj sid sid' r').
Qed.

Lemma cleanup_idle_sessions_registry_ok now p :
  MCPProxy.registry_ok p -> MCPProxy.registry_ok (MCPProxy.cleanup_idle_sessions now p).
Proof.
  unfold MCPProxy.cleanup_idle_sessions.
  generalize (MCPProxy.idle_sessions now p). intros ids.
  induction ids as [|sid ids IH] in p |- *; [done|]. intros Hp. simpl.
  by apply IH, pop_and_stop_registry_ok.
Qed.

Lemma stop_registry_ok p : MCPProxy.registry_ok (MCPProxy.stop p).
Proof.
  unfold MCPProxy.stop. split; [|split].
  - intros sid sid' r Hr. simpl in Hr. by rewrite lookup_empty in Hr.
  - intros sid r Hr. simpl in Hr. by rewrite lookup_empty in Hr.
  - intros sid r s Hr. simpl in Hr. by rewrite lookup_empty in Hr.
Qed.

End ReachableProxy.

(** X9: whatever calls are made on a new proxy, one after the other
    (sessions got or created, requests handled, reaper passes, stops),
    its registry names each session object once, names only objects that
    exist, and every session it names carries the id it is registered
    under and is active. *)
Theorem reachable_registry_is_ok {os : OS} (session_timeout cleanup_interval : Z)
    (calls : list MCPProxy.call) :
  MCPProxy.registry_ok
    (foldl MCPProxy.apply (MCPProxy.init session_timeout cleanup_interval) calls).
Proof.
  assert (MCPProxy.registry_ok (MCPProxy.init session_timeout cleanup_interval))
    as Hinit.
  { destruct (init_named_once session_timeout cleanup_interval) as [H1 H2].
    split; [done|]. split; [done|].
    intros sid r s Hr. simpl in Hr. by rewrite lookup_empty in Hr. }
  revert Hinit. generalize (MCPProxy.init session_timeout cleanup_interval).
  induction calls as [|c calls IH]; intros p Hp; [done|]. simpl. apply IH.
  destruct c; simpl.
  - by apply get_or_create_session_registry_ok.
  - by apply handle_mcp_request_registry_ok.
  - by apply cleanup_idle_sessions_registry_ok.
  - apply stop_registry_ok.
Qed.

(** ** The session reaper and the stop of the proxy *)

Section SessionReaperFacts.
Context {os : OS}.






End SessionReaperFacts.




(** ** Stopping a session, and sending to it *)


Section SendFacts.
Context {os : OS}.

Lemma send_message_active now message s :
  s.(MCPSession.state) = ACTIVE ->
  (MCPSession.send_message now message s).2
  = MCPSession.set_stdin_queue
      (s.(MCPSession.stdin_queue) ++ [json_dumps message +:+ newline])
      (MCPSession.set_last_activity now s).
Proof.
  intros Hs. unfold MCPSession.send_message.
  by rewrite bool_decide_eq_false_2 by (by intros []).
Qed.

Lemma send_message_inactive now message s :
  s.(MCPSession.state) <> ACTIVE ->
  (MCPSession.send_message now message s).2 = s.
Proof.
  intros Hs. unfold MCPSession.send_message. by rewrite bool_decide_eq_true_2.
Qed.

Lemma run_sends_active now messages s :
  s.(MCPSession.state) = ACTIVE ->
  (MCPSession.run now (MCPSession.SendMessage <$> messages) s).(MCPSession.state)
  = ACTIVE /\
  (MCPSession.run now (MCPSession.SendMessage <$> messages) s).(MCPSession.stdin_queue)
  = s.(MCPSession.stdin_queue) ++ ((fun m => json_dumps m +:+ newline) <$> messages).
Proof.
  induction messages as [|m messages IH] in s |- *; intros Hs.
  { simpl. by rewrite app_nil_r. }
  change (MCPSession.run now (MCPSession.SendMessage <$> (m :: messages)) s)
    with (MCPSession.run now (MCPSession.SendMessage <$> messages)
            (MCPSession.send_message now m s).2).
  rewrite (send_message_active now m s Hs).
  destruct (IH (MCPSession.set_stdin_queue
                  (MCPSession.stdin_queue s ++ [json_dumps m +:+ newline])
                  (MCPSession.set_last_activity now s)) Hs) as [H1 H2].
  split; [exact H1|]. rewrite H2. simpl. by rewrite <- app_assoc.
Qed.

Lemma run_sends_inactive now messages s :
  s.(MCPSession.state) <> ACTIVE ->
  MCPSession.run now (MCPSession.SendMessage <$> messages) s = s.
Proof.
  induction messages as [|m messages IH] in s |- *; intros Hs; [done|].
  change (MCPSession.run now (MCPSession.SendMessage <$> (m :: messages)) s)
    with (MCPSession.run now (MCPSession.SendMessage <$> messages)
            (MCPSession.send_message now m s).2).
  rewrite (send_message_inactive now m s Hs). by apply IH.
Qed.

Lemma append_newline_not_empty line : line +:+ newline <> "".
Proof. by destruct line. Qed.

Lemma write_stdin_all accepts queue :
  Forall (fun line => line <> "" /\ accepts line = true) queue ->
  MCPSession.write_stdin accepts queue = (queue, [], false).
Proof.
  induction 1 as [|line queue [Hne Hacc] _ IH]; [done|]. simpl.
  apply String.eqb_neq in Hne. by rewrite Hne, Hacc, IH.
Qed.

Lemma write_stdin_prefix accepts queue :
  Forall (fun line => line <> "") queue ->
  let '(written, rest, ended) := MCPSession.write_stdin accepts queue in
  written `prefix_of` queue /\
  (ended = true -> exists line, line ∈ queue /\ accepts line = false).
Proof.
  induction 1 as [|line queue Hne _ IH]; [by split|]. simpl.
  apply String.eqb_neq in Hne. rewrite Hne.
  destruct (accepts line) eqn:Hacc.
  - destruct (MCPSession.write_stdin accepts queue) as [[written rest] ended].
    destruct IH as [Hp He]. split; [by apply prefix_cons|].
    intros Hended. destruct (He Hended) as (l & Hl & Ha).
    exists l. split; [by right|done].
  - split; [apply prefix_nil|]. intros _. exists line. split; [by left|done].
Qed.

End SendFacts.

(** X13: the frames sent to an active session are queued for the child
    in the order of the calls, each followed by a newline; a session
    that is not active takes none and is not changed.  None of the
    queued frames is the empty message that ends the writer task, so on
    frames sent to a fresh queue the writer writes them all in order when
    the pipe accepts them, writes a prefix of them in any case, and ends
    only when a write fails. *)
Theorem sent_frames_reach_the_child_in_order {os : OS} (now : Z)
    (messages : list json) (accepts : string -> bool) (s : MCPSession.t) :
  let s' := MCPSession.run now (MCPSession.SendMessage <$> messages) s in
  let lines := (fun m => json_dumps m +:+ newline) <$> messages in
  (s.(MCPSession.state) <> ACTIVE -> s' = s) /\
  (s.(MCPSession.state) = ACTIVE ->
   s'.(MCPSession.stdin_queue) = s.(MCPSession.stdin_queue) ++ lines /\
   (s.(MCPSession.stdin_queue) = [] ->
    let '(written, rest, ended) :=
      MCPSession.write_stdin accepts s'.(MCPSession.stdin_queue) in
    written `prefix_of` lines /\
    (ended = true -> exists line, line ∈ lines /\ accepts line = false) /\
    (Forall (fun line => accepts line = true) lines ->
     written = lines /\ rest = [] /\ ended = false))).
Proof.
  intros s' lines. subst s'. split; [apply run_sends_inactive|].
  intros Hs. destruct (run_sends_active now messages s Hs) as [_ Hq].
  split; [done|]. intros Hempty. rewrite Hq, Hempty. simpl. fold lines.
  assert (Forall (fun line => line <> "") lines) as Hne.
  { apply Forall_forall. intros line Hl. apply list_elem_of_fmap in Hl as (m & -> & _).
    apply append_newline_not_empty. }
  pose proof (write_stdin_prefix accepts lines Hne) as Hp.
  pose proof (write_stdin_all accepts lines) as Hall.
  destruct (MCPSession.write_stdin accepts lines) as [[written rest] ended].
  destruct Hp as [Hp He]. split; [done|]. split; [done|].
  intros Hacc.
  assert ((written, rest, ended) = (lines, [], false)) as [= -> -> ->]; [|done].
  apply Hall. apply Forall_forall. intros line Hl. split.
  - by apply (proj1 (Forall_forall _ _) Hne).
  - by apply (proj1 (Forall_forall _ _) Hacc).
Qed.

(** ** Requests that are objects *)

Section AnswerFacts.
Context {os : OS}.

Lemma is_none_true o : is_none o = true <-> o = JNull.
Proof. by destruct o. Qed.

(** The session that [get_or_create_session] returns is the object at
    the reference it returns. *)
Lemma resolved_session_is_object now uuid4 container_id server_name session_id
    command args working_dir env p key r session p1 :
  MCPProxy.get_or_create_session now uuid4 container_id server_name session_id
    command args working_dir env p = (Ok (key, r, session), p1) ->
  p1.(MCPProxy.objects) !! r = Some session /\
  p1.(MCPProxy.session_timeout) = p.(MCPProxy.session_timeout).
Proof.
  intros Eg.
  destruct (get_or_create_session_cases now uuid4 container_id server_name
              session_id command args working_dir env p)
    as [(k & r0 & s & _ & _ & Hl & _ & _ & E)
       |[(k & new & E & _)|(new & E & _)]]; simpl in E; rewrite E in Eg.
  - injection Eg as <- <- <- <-. simpl. split; [|done].
    unfold MCPProxy.lookup_session in Hl.
    destruct (MCPProxy.sessions p !! k) as [r1|]; [|done]. simpl in Hl.
    destruct (MCPProxy.objects p !! r1) as [s1|] eqn:Eo; [|done].
    simpl in Hl. injection Hl as <- <-.
    apply list_lookup_insert_eq. by eapply lookup_lt_Some.
  - injection Eg as <- <- <- <-. simpl. by rewrite lookup_app_r, Nat.sub_diag.
  - done.
Qed.

(** What [forward] yields for an object: it never leaves by the fuel,
    and a request with an id is answered by a last frame with that id,
    unless an exception leaves the block. *)
Lemma forward_object now d session :
  let R := default JNull (assoc "id" d) in
  let out := MCPProxy.forward now (JDict d) session in
  out.1.2 <> MCPProxy.Unfinished /\
  (out.1.2 = MCPProxy.Broke -> R <> JNull ->
   exists pre last, out.1.1 = pre ++ [last] /\ MCPProxy.has_id R last) /\
  (R = JNull -> out.1.1 = []).
Proof.
  intros R out. subst out. unfold MCPProxy.forward.
  destruct (MCPSession.send_message now (JDict d) session) as [[[]|e] s1]; [|done].
  rewrite !py_get_dict. fold R.
  destruct (is_none R) eqn:En.
  - apply is_none_true in En. by repeat split.
  - match goal with
    | |- context [MCPProxy.receive_loop ?f ?n ?R ?s] =>
        pose proof (receive_loop_finishes f n R s ltac:(lia)) as Hfin;
        pose proof (receive_loop_last f n R s) as Hlast;
        destruct (MCPProxy.receive_loop f n R s) as [[frames how] s'] eqn:El
    end.
    simpl in *. split; [done|]. split.
    + intros -> _. by eapply Hlast.
    + intros HR. rewrite HR in En. done.
Qed.

End AnswerFacts.


(** ** Resolving a session twice *)

Section ResolveFacts.
Context {os : OS}.

(** What a successful [get_or_create_session] leaves: the id it returns
    is not empty and names, in the registry, the session it returns,
    which belongs to the container and the server of the call. *)
Lemma resolved_session_is_registered now uuid4 container_id server_name session_id
    command args working_dir env p key r session p1 :
  MCPProxy.get_or_create_session now uuid4 container_id server_name session_id
    command args working_dir env p = (Ok (key, r, session), p1) ->
  key <> "" /\
  MCPProxy.lookup_session p1 key = Some (r, session) /\
  session.(MCPSession.container_id) = container_id /\
  session.(MCPSession.server_name) = server_name.
Proof.
  unfold MCPProxy.get_or_create_session.
  destruct (if truthy session_id then _ else None) as [[[k r0] s0]|] eqn:Ef.
  - destruct (truthy session_id) eqn:Et; [|done].
    destruct session_id as [sid|]; [|done]. simpl in Ef.
    destruct (MCPProxy.lookup_session p sid) as [[r1 s1]|] eqn:El; [|done].
    simpl in Ef.
    destruct (String.eqb (MCPSession.container_id s1) container_id) eqn:E1; [|done].
    destruct (String.eqb (MCPSession.server_name s1) server_name) eqn:E2; [|done].
    simpl in Ef. injection Ef as <- <- <-. intros [= <- <- <- <-].
    apply String.eqb_eq in E1, E2. apply truthy_Some in Et.
    split; [done|]. split; [|done].
    unfold MCPProxy.lookup_session in *. simpl.
    destruct (MCPProxy.sessions p !! sid) as [r2|]; [|done]. simpl in *.
    destruct (MCPProxy.objects p !! r2) as [s2|] eqn:Eo; [|done].
    simpl in El. injection El as -> ->.
    rewrite list_lookup_insert_eq by (by eapply lookup_lt_Some). done.
  - unfold MCPSession.start, MCPSession.init. simpl.
    destruct (create_subprocess_exec _ _ _) as [proc|e]; simpl; [|done].
    intros [= <- <- <- <-]. split.
    + destruct (truthy session_id) eqn:Et.
      * destruct session_id as [sid|]; [|done]. by apply truthy_Some in Et.
      * done.
    + split; [|done]. unfold MCPProxy.lookup_session. simpl.
      rewrite lookup_insert_eq. simpl.
      by rewrite lookup_app_r, Nat.sub_diag.
Qed.

End ResolveFacts.

(** X15: the id that [get_or_create_session] returns resolves, on the
    next call for the same container and server, to the same session
    object: the call returns the same id and reference, starts no child
    whatever command and arguments it is given, leaves the registry as it
    is and only renews [last_activity]. *)
Theorem returned_id_resolves_to_the_same_session {os : OS} (now now' : Z)
    (uuid4 uuid4' : string) (container_id server_name : string)
    (session_id : option string) (command command' : option string)
    (args args' : option (list string)) (working_dir working_dir' : option string)
    (env env' : option (list (string * string)))
    (p p1 : MCPProxy.t) (key : string) (r : nat) (session : MCPSession.t) :
  MCPProxy.get_or_create_session now uuid4 container_id server_name session_id
    command args working_dir env p = (Ok (key, r, session), p1) ->
  MCPProxy.get_or_create_session now' uuid4' container_id server_name (Some key)
    command' args' working_dir' env' p1
  = (Ok (key, r, MCPSession.set_last_activity now' session),
     MCPProxy.set_objects
       (<[r := MCPSession.set_last_activity now' session]> p1.(MCPProxy.objects)) p1).
Proof.
  intros Hget.
  destruct (resolved_session_is_registered _ _ _ _ _ _ _ _ _ _ _ _ _ _ Hget)
    as (Hkey & Hl & Hc & Hs).
  unfold MCPProxy.get_or_create_session.
  rewrite (proj2 (truthy_Some key) Hkey). simpl. rewrite Hl. simpl.
  rewrite Hc, Hs, !String.eqb_refl. reflexivity.
Qed.

Lemma returned_id_resolves_to_the_same_session_witness :
  exists session p1,
    MCPProxy.get_or_create_session (os := echo_os) 0 "u" "c1" "echo" None
      None None None None fresh_proxy = (Ok ("mcp-u", 0, session), p1) /\
    MCPProxy.get_or_create_session (os := echo_os) 7 "v" "c1" "echo" (Some "mcp-u")
      (Some "missing") None None None p1
    = (Ok ("mcp-u", 0, MCPSession.set_last_activity 7 session),
       MCPProxy.set_objects [MCPSession.set_last_activity 7 session] p1).
Proof.
  eexists _, _. split; [reflexivity|].
  exact (returned_id_resolves_to_the_same_session (os := echo_os) 0 7 "u" "v"
           "c1" "echo" None None (Some "missing") None None None None None None
           fresh_proxy _ "mcp-u" 0 _ eq_refl).
Defined.

(** ** A child that cannot be started *)



(** ** The response that ends an exchange *)

Section MatchFacts.
Context {os : OS}.

(** The loop stops at the first queued frame with the id of the request:
    the frames before it and the frame itself are yielded, the lines
    after it stay queued. *)
Lemma receive_loop_match fuel now request_id session pre line post response :
  session.(MCPSession.state) = ACTIVE ->
  session.(MCPSession.stdout_queue) = pre ++ line :: post ->
  Forall (fun line => exists response,
            json_loads line = Some response /\
            MCPProxy.passes_by request_id response) pre ->
  json_loads line = Some response ->
  MCPProxy.final_response request_id response = Ok true ->
  length pre < fuel ->
  MCPProxy.receive_loop fuel now request_id session
  = (omap json_loads pre ++ [response], MCPProxy.Broke,
     MCPSession.set_last_activity now (MCPSession.set_stdout_queue post session)).
Proof.
  induction fuel as [|fuel IH] in session, pre |- *; [lia|].
  intros Hst Hq Hpre Hline Hfin Hlen. simpl. unfold MCPSession.receive_message.
  rewrite bool_decide_eq_false_2 by (by intros []).
  rewrite Hq. destruct pre as [|first pre]; simpl.
  - by rewrite Hline, Hfin.
  - apply Forall_cons in Hpre as [(r1 & El & Hp) Hpre].
    rewrite El. unfold MCPProxy.passes_by in Hp. rewrite Hp.
    rewrite (IH (MCPSession.set_last_activity now
                   (MCPSession.set_stdout_queue (pre ++ line :: post) session))
                pre Hst eq_refl Hpre Hline Hfin ltac:(simpl in Hlen; lia)).
    by destruct session.
Qed.

(** The whole of [handle_mcp_request] in that case. *)
Lemma handle_mcp_request_match now uuid4 container_id server_name d session_id
    command args p p1 key r session R pre post line response :
  MCPProxy.get_or_create_session now uuid4 container_id server_name session_id
    command args None None p = (Ok (key, r, session), p1) ->
  session.(MCPSession.state) = ACTIVE ->
  assoc "id" d = Some R -> R <> JNull ->
  session.(MCPSession.stdout_queue) = pre ++ line :: post ->
  Forall (fun line => exists response,
            json_loads line = Some response /\ MCPProxy.passes_by R response) pre ->
  json_loads line = Some response ->
  MCPProxy.final_response R response = Ok true ->
  exists s',
    MCPProxy.handle_mcp_request now uuid4 container_id server_name
      (JDict d) session_id command args p
    = ({| yielded := omap json_loads pre ++ [response]; ending := Returned |},
       MCPProxy.set_objects (<[r := s']> p1.(MCPProxy.objects)) p1) /\
    s'.(MCPSession.stdout_queue) = post /\
    s'.(MCPSession.stdin_queue)
    = session.(MCPSession.stdin_queue) ++ [json_dumps (JDict d) +:+ newline] /\
    s'.(MCPSession.last_activity) = now /\
    s'.(MCPSession.state) = ACTIVE.
Proof.
  intros Hget Hst Hid HR Hq Hpre Hline Hfin.
  unfold MCPProxy.handle_mcp_request. rewrite Hget.
  unfold MCPProxy.forward, MCPSession.send_message.
  rewrite bool_decide_eq_false_2 by (by intros []).
  rewrite !py_get_dict, Hid. simpl default.
  replace (is_none R) with false by (by destruct R).
  match goal with
  | |- context [MCPProxy.receive_loop ?f ?n ?R ?s] =>
      rewrite (receive_loop_match f n R s pre line post response)
  end.
  - eexists. split; [reflexivity|]. by destruct (py_eq _ _).
  - by destruct (py_eq _ _).
  - by destruct (py_eq _ _).
  - done.
  - done.
  - done.
  - destruct (py_eq _ _); simpl; rewrite Hq, length_app; simpl; lia.
Qed.

(** A request that is an object never leaves the generator running or
    through an exception. *)
Lemma handle_mcp_request_object_returns now uuid4 container_id server_name d
    session_id command args p :
  (MCPProxy.handle_mcp_request now uuid4 container_id server_name (JDict d)
     session_id command args p).1.(ending) = Returned.
Proof.
  unfold MCPProxy.handle_mcp_request, MCPProxy.internal_error.
  destruct (MCPProxy.get_or_create_session _ _ _ _ _ _ _ _ _ _)
    as [[[[key r] session]|e] p1]; [|done].
  destruct (forward_object now d session) as (Hfin & _).
  destruct (MCPProxy.forward now (JDict d) session) as [[frames how] s'].
  simpl in *. by destruct how.
Qed.

End MatchFacts.

(** X17: on an active session whose queue holds, after frames that pass
    by, a frame with the id [R] of the request, [handle_mcp_request]
    yields the frames up to and including that frame and returns.  The
    lines queued behind it are not read: they stay in the queue of the
    session, where the next request on the session finds them first.  The
    request has been queued for the child and [last_activity] is the time
    of the call. *)
Theorem matching_response_ends_the_exchange {os : OS} (now : Z) (uuid4 : string)
    (container_id server_name : string) (d : list (string * json))
    (session_id command : option string) (args : option (list string))
    (p p1 : MCPProxy.t) (key : string) (r : nat) (session : MCPSession.t)
    (R : json) (pre post : list string) (line : string) (response : json) :
  MCPProxy.get_or_create_session now uuid4 container_id server_name session_id
    command args None None p = (Ok (key, r, session), p1) ->
  session.(MCPSession.state) = ACTIVE ->
  assoc "id" d = Some R -> R <> JNull ->
  session.(MCPSession.stdout_queue) = pre ++ line :: post ->
  Forall (fun line => exists response,
            json_loads line = Some response /\ MCPProxy.passes_by R response) pre ->
  json_loads line = Some response ->
  MCPProxy.final_response R response = Ok true ->
  let out := MCPProxy.handle_mcp_request now uuid4 container_id server_name
               (JDict d) session_id command args p in
  out.1 = {| yielded := omap json_loads pre ++ [response]; ending := Returned |} /\
  out.2.(MCPProxy.sessions) = p1.(MCPProxy.sessions) /\
  exists s', out.2.(MCPProxy.objects) !! r = Some s' /\
    s'.(MCPSession.stdout_queue) = post /\
    s'.(MCPSession.stdin_queue)
    = session.(MCPSession.stdin_queue) ++ [json_dumps (JDict d) +:+ newline] /\
    s'.(MCPSession.last_activity) = now /\
    s'.(MCPSession.state) = ACTIVE.
Proof.
  intros Hget Hst Hid HR Hq Hpre Hline Hfin out. subst out.
  destruct (resolved_session_is_object _ _ _ _ _ _ _ _ _ _ _ _ _ _ Hget) as [Ho _].
  destruct (handle_mcp_request_match _ _ _ _ _ _ _ _ _ _ _ _ _ _ _ _ _ _
              Hget Hst Hid HR Hq Hpre Hline Hfin) as (s' & -> & Hs').
  simpl. split; [done|]. split; [done|].
  exists s'. split; [|done].
  apply list_lookup_insert_eq. by eapply lookup_lt_Some.
Qed.

Lemma matching_response_ends_the_exchange_witness :
  let respond := dumps (result_frame (JInt 1)) in
  let session :=
    MCPSession.set_stdout_queue [dumps progress_frame; respond; respond]
      busy_session in
  let p := MCPProxy.mk 3600 300 {[ "s1" := 0 ]} [session] in
  let out := MCPProxy.handle_mcp_request (os := echo_os) 10 "u" "c1" "echo"
               (ping_request 1) (Some "s1") None None p in
  out.1 = {| yielded := [progress_frame; result_frame (JInt 1)];
             ending := Returned |} /\
  out.2.(MCPProxy.sessions) = {[ "s1" := 0 ]} /\
  exists s', out.2.(MCPProxy.objects) !! 0 = Some s' /\
    s'.(MCPSession.stdout_queue) = [respond] /\
    s'.(MCPSession.stdin_queue) = [dumps (ping_request 1) +:+ newline] /\
    s'.(MCPSession.last_activity) = 10%Z /\
    s'.(MCPSession.state) = ACTIVE.
Proof.
  intros respond session p.
  apply (matching_response_ends_the_exchange (os := echo_os) 10 "u" "c1" "echo"
           [("jsonrpc", JStr "2.0"); ("method", JStr "ping"); ("id", JInt 1)]
           (Some "s1") None None p
           (MCPProxy.set_objects [MCPSession.set_last_activity 10 session] p)
           "s1" 0 (MCPSession.set_last_activity 10 session) (JInt 1)
           [dumps progress_frame] [respond] respond (result_frame (JInt 1))).
  - reflexivity.
  - reflexivity.
  - reflexivity.
  - discriminate.
  - reflexivity.
  - repeat constructor. exists progress_frame. split; reflexivity.
  - reflexivity.
  - reflexivity.
Defined.

(** ** The proxy route *)

Section RouteFacts.
Context {os : OS}.

(** The validation of a batch stops at the first item the model refuses. *)
Lemma validate_batch_first items e :
  Router.validate (JList items) = Some e ->
  exists pre item post,
    items = pre ++ item :: post /\
    Forall (fun item => JSONRPC20Request_validate item = None) pre /\
    JSONRPC20Request_validate item = Some e.
Proof.
  simpl. destruct (list_find _ _) as [[i o]|] eqn:Ef; [|done]. simpl. intros ->.
  apply list_find_Some in Ef as (Hl & _ & Hbefore).
  apply list_lookup_fmap_Some in Hl as (item & Hv & Hi).
  exists (take i items), item, (drop (S i) items).
  split; [by rewrite take_drop_middle|]. split; [|done].
  apply Forall_forall. intros x Hx.
  apply list_elem_of_lookup in Hx as [j Hj].
  apply lookup_take_Some in Hj as [Hj Hlt].
  specialize (Hbefore j (JSONRPC20Request_validate x)).
  rewrite list_lookup_fmap, Hj in Hbefore.
  specialize (Hbefore eq_refl Hlt).
  destruct (JSONRPC20Request_validate x); [|done].
  by destruct Hbefore.
Qed.

(** [handle_mcp_request] changes the registry as its call of
    [get_or_create_session] does, and no more. *)
Lemma handle_mcp_request_sessions now uuid4 container_id server_name request_data
    session_id command args p :
  (MCPProxy.handle_mcp_request now uuid4 container_id server_name request_data
     session_id command args p).2.(MCPProxy.sessions)
  = (MCPProxy.get_or_create_session now uuid4 container_id server_name session_id
       command args None None p).2.(MCPProxy.sessions).
Proof.
  unfold MCPProxy.handle_mcp_request.
  destruct (MCPProxy.get_or_create_session _ _ _ _ _ _ _ _ _ _)
    as [[[[key r] session]|e] p1]; [|done].
  destruct (MCPProxy.forward now request_data session) as [[frames how] s'].
  by destruct how.
Qed.

End RouteFacts.

(** X18: a body that decodes but that the model [JSONRPC20Request]
    refuses is answered with status 400 and the error -32600, before any
    session is looked up or created: the proxy is unchanged, and only the
    usage time of the container is renewed.  The id of the request is
    echoed when the body is an object and is null otherwise, also for a
    batch; for a batch the message is that of the first item refused, and
    the items after it are not looked at. *)
Theorem invalid_request_is_rejected {os : OS} (now : Z) (uuid4 : string)
    (container_id server_name body : string) (accept mcp_session_id : option string)
    (m : ContainerManager.t) (p : MCPProxy.t) (container : ExecutionContainer)
    (request_data : json) (e : string) :
  m.(ContainerManager.containers) !! container_id = Some container ->
  json_loads body = Some request_data ->
  Router.validate request_data = Some e ->
  Router.mcp_proxy_endpoint now uuid4 container_id server_name body accept
    mcp_session_id m p
  = (Ok (JSONResponse 400
           (JDict [("jsonrpc", JStr "2.0");
                   ("error", JDict [("code", JInt (-32600));
                                    ("message", JStr ("Invalid Request: " +:+ e))]);
                   ("id", match request_data with
                          | JDict d => default JNull (assoc "id" d)
                          | _ => JNull
                          end)]) []),
     ContainerManager.update_container_usage now container_id m, p) /\
  (forall items, request_data = JList items ->
     exists pre item post,
       items = pre ++ item :: post /\
       Forall (fun item => JSONRPC20Request_validate item = None) pre /\
       JSONRPC20Request_validate item = Some e).
Proof.
  intros Hc Hb Hv. split.
  - unfold Router.mcp_proxy_endpoint, ContainerManager.get_container.
    by rewrite Hc, Hb, Hv.
  - intros items ->. by apply validate_batch_first.
Qed.

Lemma invalid_request_is_rejected_witness :
  Router.mcp_proxy_endpoint (os := echo_os) 9 "u" "c1" "echo"
    (dumps (result_frame (JInt 1))) None (Some "s1") one_container busy_proxy
  = (Ok (JSONResponse 400
           (JDict [("jsonrpc", JStr "2.0");
                   ("error", JDict [("code", JInt (-32600));
                                    ("message",
                                     JStr "Invalid Request: method: field required")]);
                   ("id", JInt 1)]) []),
     ContainerManager.update_container_usage 9 "c1" one_container, busy_proxy).
Proof.
  refine (proj1 (invalid_request_is_rejected (os := echo_os) 9 "u" "c1" "echo"
                   (dumps (result_frame (JInt 1))) None (Some "s1") one_container
                   busy_proxy _ (result_frame (JInt 1)) "method: field required"
                   _ _ _)); reflexivity.
Defined.

(** X19: a valid request without a session id header, for a registered
    container whose server can be spawned, registers a new session under
    ["mcp-"] followed by the fresh uuid, and the response, whichever mode
    it is in, carries no [Mcp-Session-Id] header: the id under which the
    session stays registered is not told to the client. *)
Theorem minted_session_id_is_not_returned {os : OS} (now : Z) (uuid4 : string)
    (container_id server_name body : string) (accept mcp_session_id : option string)
    (m : ContainerManager.t) (p : MCPProxy.t) (container : ExecutionContainer)
    (d : list (string * json)) (proc : Process) :
  m.(ContainerManager.containers) !! container_id = Some container ->
  json_loads body = Some (JDict d) ->
  JSONRPC20Request_validate (JDict d) = None ->
  truthy mcp_session_id = false ->
  create_subprocess_exec
    ["uvx"; "supergateway"; "--stdio"; "mcp-server-" +:+ server_name] None []
  = Ok proc ->
  let out := Router.mcp_proxy_endpoint now uuid4 container_id server_name body
               accept mcp_session_id m p in
  out.2.(MCPProxy.sessions)
  = <["mcp-" +:+ uuid4 := length p.(MCPProxy.objects)]> p.(MCPProxy.sessions) /\
  ((exists content, out.1.1 = Ok (JSONResponse 200 content [])) \/
   (exists chunks,
      out.1.1 = Ok (StreamingResponse chunks Returned "text/event-stream" []))).
Proof.
  intros Hc Hb Hv Ht Hspawn out. subst out.
  unfold Router.mcp_proxy_endpoint, ContainerManager.get_container.
  rewrite Hc, Hb. simpl Router.validate. rewrite Hv.
  pose proof (handle_mcp_request_sessions now uuid4 container_id server_name
                (JDict d) mcp_session_id None None p) as Hs.
  pose proof (handle_mcp_request_object_returns now uuid4 container_id server_name
                d mcp_session_id None None p) as Hend.
  destruct (create_session_spawned now uuid4 container_id server_name
              mcp_session_id None None None None p proc) as (session & Hg & _).
  { intros sid -> Hne. apply truthy_Some in Hne. congruence. }
  { exact Hspawn. }
  rewrite Hg, Ht in Hs. simpl in Hs.
  destruct (MCPProxy.handle_mcp_request _ _ _ _ _ _ _ _ _) as [g p'].
  simpl in Hs, Hend. unfold Router.session_headers. rewrite Ht, Hend.
  destruct (str_contains _ _); simpl; (split; [done|]); [right|left]; by eexists.
Qed.

Lemma minted_session_id_is_not_returned_witness :
  let out := Router.mcp_proxy_endpoint (os := echo_os) 9 "6f1c" "c1" "echo"
               (dumps initialize_request) None None one_container fresh_proxy in
  out.2.(MCPProxy.sessions) = <["mcp-6f1c" := 0]> ∅ /\
  ((exists content, out.1.1 = Ok (JSONResponse 200 content [])) \/
   (exists chunks,
      out.1.1 = Ok (StreamingResponse chunks Returned "text/event-stream" []))).
Proof.
  refine (minted_session_id_is_not_returned (os := echo_os) 9 "6f1c" "c1" "echo"
            (dumps initialize_request) None None one_container fresh_proxy _
            [("jsonrpc", JStr "2.0"); ("method", JStr "initialize"); ("id", JInt 1)]
            {| pid := 4242; returncode := None |} _ _ _ _ _); reflexivity.
Defined.

(** X20: what the client gets of an exchange depends on the mode.  On an
    active session whose queue holds, after frames that pass by, the frame
    with the id of the request, a request under [Accept: text/event-stream]
    is answered by one event per frame, in order, the response last;
    otherwise the body is the first frame alone, which is the response
    only when no frame was queued before it.  In both modes the frames up
    to the response have left the queue of the session. *)
Theorem mode_decides_what_is_delivered {os : OS} (now : Z) (uuid4 : string)
    (container_id server_name body : string) (accept mcp_session_id : option string)
    (m : ContainerManager.t) (p p1 : MCPProxy.t) (container : ExecutionContainer)
    (d : list (string * json)) (key : string) (r : nat) (session : MCPSession.t)
    (R : json) (pre post : list string) (line : string) (response : json) :
  m.(ContainerManager.containers) !! container_id = Some container ->
  json_loads body = Some (JDict d) ->
  JSONRPC20Request_validate (JDict d) = None ->
  MCPProxy.get_or_create_session now uuid4 container_id server_name mcp_session_id
    None None None None p = (Ok (key, r, session), p1) ->
  session.(MCPSession.state) = ACTIVE ->
  assoc "id" d = Some R -> R <> JNull ->
  session.(MCPSession.stdout_queue) = pre ++ line :: post ->
  Forall (fun line => exists response,
            json_loads line = Some response /\ MCPProxy.passes_by R response) pre ->
  json_loads line = Some response ->
  MCPProxy.final_response R response = Ok true ->
  let out := Router.mcp_proxy_endpoint now uuid4 container_id server_name body
               accept mcp_session_id m p in
  let frames := omap json_loads pre ++ [response] in
  let headers := Router.session_headers mcp_session_id in
  out.1.1
  = Ok (if str_contains "text/event-stream" (default "application/json" accept)
        then StreamingResponse
               ((fun frame => "data: " +:+ json_dumps frame +:+ newline +:+ newline)
                  <$> frames)
               Returned "text/event-stream" headers
        else JSONResponse 200 (default response (head (omap json_loads pre)))
               headers) /\
  exists s', out.2.(MCPProxy.objects) !! r = Some s' /\
             s'.(MCPSession.stdout_queue) = post.
Proof.
  intros Hc Hb Hv Hget Hst Hid HR Hq Hpre Hline Hfin out frames headers.
  subst out frames headers.
  destruct (resolved_session_is_object _ _ _ _ _ _ _ _ _ _ _ _ _ _ Hget) as [Ho _].
  destruct (handle_mcp_request_match _ _ _ _ _ _ _ _ _ _ _ _ _ _ _ _ _ _
              Hget Hst Hid HR Hq Hpre Hline Hfin) as (s' & Hh & Hpost & _).
  unfold Router.mcp_proxy_endpoint, ContainerManager.get_container.
  rewrite Hc, Hb. simpl Router.validate. rewrite Hv, Hh. simpl. split.
  - destruct (str_contains _ _); simpl; [done|].
    by destruct (omap json_loads pre).
  - exists s'. split; [|done].
    destruct (str_contains _ _); simpl;
      (apply list_lookup_insert_eq; by eapply lookup_lt_Some).
Qed.

Lemma mode_decides_what_is_delivered_witness :
  let out := Router.mcp_proxy_endpoint (os := echo_os) 10 "u" "c1" "echo"
               (dumps initialize_request) (Some "application/json") (Some "s1")
               one_container busy_proxy in
  out.1.1 = Ok (JSONResponse 200 progress_frame [("Mcp-Session-Id", "s1")]) /\
  exists s', out.2.(MCPProxy.objects) !! 0 = Some s' /\
             s'.(MCPSession.stdout_queue) = [].
Proof.
  refine (mode_decides_what_is_delivered (os := echo_os) 10 "u" "c1" "echo"
            (dumps initialize_request) (Some "application/json") (Some "s1")
            one_container busy_proxy
            (MCPProxy.set_objects [MCPSession.set_last_activity 10 busy_session]
               busy_proxy)
            _ [("jsonrpc", JStr "2.0"); ("method", JStr "initialize"); ("id", JInt 1)]
            "s1" 0 (MCPSession.set_last_activity 10 busy_session) (JInt 1)
            [dumps progress_frame] [] (dumps (result_frame (JInt 1)))
            (result_frame (JInt 1)) _ _ _ _ _ _ _ _ _ _ _);
    try reflexivity; [discriminate|].
  repeat constructor. exists progress_frame. split; reflexivity.
Defined.
